(** * well_point_interpolate: a shallow embedding of the command-line tool

    The program reads a comma-delimited list of measured depths (MD) and a
    CSV survey table, builds a trajectory with the [well_profile] package,
    interpolates one point per MD, optionally projects the points to WGS84
    with [pyproj], and prints the points as compact JSON.

    The embedding follows [well_point_interpolate.py] statement by
    statement.  Numbers are kept behind a small interface ([Number]) with
    two instances: IEEE binary64 floats, on which the program runs, and the
    real numbers, on which the trajectory mathematics is stated. *)

From Stdlib Require Import List String Ascii Bool ZArith Lia.
From Stdlib Require Import Floats.PrimFloat Numbers.Cyclic.Int63.Uint63.
From Stdlib Require Import Reals Lra.
From Stdlib Require Import Sorting.Permutation Sorting.Sorted.
Import ListNotations.

Local Open Scope string_scope.
Local Open Scope list_scope.

(** ** Python values *)

(** The three operations [main] performs on a float: conversion from an
    [int] (the literal [0] used as a default), subtraction, and the truth
    test of [if args.x0]. *)
Class Number (F : Type) : Type := {
  of_int : Z -> F;
  fsub : F -> F -> F;
  nonzero : F -> bool
}.

Module Py.

Section Values.
Context {F : Type} `{Number F}.

(** A Python number as [main] holds it: [x0 = args.x0 if args.x0 else 0]
    is either the [int] 0 or a [float]. *)
Inductive number : Type :=
| Int (z : Z)
| Float (f : F).

Inductive pyval : Type :=
| PNone
| PBool (b : bool)
| PNum (n : number)
| PStr (s : string).

(** [bool(v)]. *)
Definition truthy_num (n : number) : bool :=
  match n with
  | Int z => negb (Z.eqb z 0)
  | Float f => nonzero f
  end.

Definition truthy (v : pyval) : bool :=
  match v with
  | PNone => false
  | PBool b => b
  | PNum n => truthy_num n
  | PStr s => negb (String.eqb s "")
  end.

(** [n - f] for a number [n] and a float [f]: an [int] operand is
    converted to [float] first. *)
Definition num_sub (n : number) (f : F) : F :=
  match n with
  | Int z => fsub (of_int z) f
  | Float g => fsub g f
  end.

(** A [dict] with string keys, in insertion order. *)
Definition dict : Type := list (string * pyval).

Fixpoint getitem (d : dict) (k : string) : option pyval :=
  match d with
  | [] => None
  | (k', v) :: rest => if String.eqb k' k then Some v else getitem rest k
  end.

(** [d[k] = v]: replaces the value of an existing key in place, appends a
    new key at the end. *)
Fixpoint setitem (d : dict) (k : string) (v : pyval) : dict :=
  match d with
  | [] => [(k, v)]
  | (k', v') :: rest =>
      if String.eqb k' k then (k', v) :: rest else (k', v') :: setitem rest k v
  end.

Definition has_key (d : dict) (k : string) : bool :=
  match getitem d k with Some _ => true | None => false end.

End Values.

Arguments number : clear implicits.
Arguments pyval : clear implicits.
Arguments dict : clear implicits.

(** Exceptions, by class.  [UnboundLocalError] is the subclass of
    [NameError] raised on reading a local variable that was never
    assigned. *)
Inductive exn : Type :=
| ValueError
| TypeError
| KeyError (key : string)
| UnboundLocalError (name : string)
| CRSError
| Exception (msg : string) (cols : list string)
| OtherError (cls : string) (detail : string).

Definition is_NameError (e : exn) : bool :=
  match e with UnboundLocalError _ => true | _ => false end.

Definition is_ValueError (e : exn) : bool :=
  match e with ValueError => true | _ => false end.

Definition is_TypeError (e : exn) : bool :=
  match e with TypeError => true | _ => false end.

Definition is_CRSError (e : exn) : bool :=
  match e with CRSError => true | _ => false end.

(** [s.split(sep)] for a one-character separator. *)
Fixpoint split (sep : ascii) (s : string) : list string :=
  match s with
  | EmptyString => [EmptyString]
  | String c rest =>
      if Ascii.eqb c sep then EmptyString :: split sep rest
      else match split sep rest with
           | [] => [String c EmptyString]
           | w :: ws => String c w :: ws
           end
  end.

End Py.

Import Py.

(** ** Logging *)

Module Logging.

Inductive level : Type := DEBUG | INFO | WARNING | ERROR | CRITICAL.

Definition levelno (l : level) : Z :=
  match l with
  | DEBUG => 10 | INFO => 20 | WARNING => 30 | ERROR => 40 | CRITICAL => 50
  end%Z.

(** A value substituted into an f-string. *)
Inductive fmtarg (F : Type) : Type :=
| AVal (v : pyval F)
| ACols (cols : list string)
| ADict (d : dict F).
Arguments AVal {F} v.
Arguments ACols {F} cols.
Arguments ADict {F} d.

(** One record written by the stream handler: the level, the f-string
    as written in the source, and the values of its fields. *)
Record record (F : Type) : Type := mkRecord {
  levelname : level;
  msg : string;
  fields : list (fmtarg F)
}.
Arguments mkRecord {F} _ _ _.
Arguments levelname {F} _.
Arguments msg {F} _.
Arguments fields {F} _.

(** [get_logger(log_level)]: the logger is determined by its threshold. *)
Definition Logger : Type := level.

Definition get_logger (log_level : level) : Logger := log_level.

Definition isEnabledFor (logger : Logger) (l : level) : bool :=
  (levelno logger <=? levelno l)%Z.

End Logging.

Import Logging.

(** ** The monad of [main]: a log and either an exception or a value *)

Section Monad.
Context {F : Type}.

Definition M (A : Type) : Type := list (record F) * (exn + A).

Definition ret {A} (a : A) : M A := ([], inr a).

Definition bind {A B} (m : M A) (k : A -> M B) : M B :=
  match m with
  | (l, inl e) => (l, inl e)
  | (l, inr a) => let (l', r) := k a in (l ++ l', r)
  end.

Definition raise {A} (e : exn) : M A := ([], inl e).

(** The result of a call into a library. *)
Definition lift {A} (r : exn + A) : M A := ([], r).

Definition emit (logger : Logger) (l : level) (m : string)
    (fs : list (fmtarg F)) : M unit :=
  if isEnabledFor logger l then ([mkRecord l m fs], inr tt) else ([], inr tt).

Definition log_of {A} (m : M A) : list (record F) := fst m.
Definition outcome {A} (m : M A) : exn + A := snd m.

End Monad.

Arguments M : clear implicits.

Notation "x <- c ;; k" := (bind c (fun x => k))
  (at level 61, c at next level, right associativity).
Notation "c ;;; k" := (bind c (fun _ => k))
  (at level 61, right associativity).

(** ** Command-line arguments and library values *)

Module Args.
(** The namespace returned by [get_args]: [md] and [csv] are required
    strings; the options are [None] when not given. *)
Record Namespace (F : Type) : Type := mkNamespace {
  md : string;
  csv : string;
  wkid : option Z;
  x0 : option F;
  y0 : option F;
  z0 : option F;
  azi_adj : option F;
  debug : bool
}.
Arguments mkNamespace {F} _ _ _ _ _ _ _ _.
Arguments md {F} _.
Arguments csv {F} _.
Arguments wkid {F} _.
Arguments x0 {F} _.
Arguments y0 {F} _.
Arguments z0 {F} _.
Arguments azi_adj {F} _.
Arguments debug {F} _.
End Args.

Module Wp.
(** The fields [main] reads from the dictionary returned by
    [well.get_point]. *)
Record point (F : Type) : Type := mkPoint {
  north : F;
  east : F;
  tvd : F
}.
Arguments mkPoint {F} _ _ _.
Arguments north {F} _.
Arguments east {F} _.
Arguments tvd {F} _.
End Wp.

(** ** The program *)

Section Program.
Context {F : Type} `{Number F}.

(** The built-in [float(s)] on a string: [None] stands for [ValueError]. *)
Variable float_of_str : string -> option F.

(** [pandas], [well_profile] and [pyproj] as [main] calls them. *)
Variables DataFrame Well Transformer : Type.
Variable read_csv : string -> exn + DataFrame.
Variable columns : DataFrame -> list string.
(** [wp.load(df, set_start={"east": e, "north": n}, change_azimuth=a)] *)
Variable wp_load : DataFrame -> number F -> number F -> number F -> exn + Well.
Variable get_point : Well -> F -> exn + Wp.point F.
(** [pyproj.Transformer.from_crs(crs_from=w, crs_to=4326, always_xy=True)] *)
Variable from_crs : option Z -> exn + Transformer.
(** [t.transform(xx=x, yy=y)], returning [(lon, lat)]. *)
Variable transform : Transformer -> pyval F -> pyval F -> exn + (F * F).

Definition pyfloat (f : F) : pyval F := PNum (Float f).

Definition opt_float (a : option F) : pyval F :=
  match a with Some f => pyfloat f | None => PNone end.

Definition opt_int (a : option Z) : pyval F :=
  match a with Some z => PNum (Int z) | None => PNone end.

(** [a if a else 0] *)
Definition or_zero (a : option F) : number F :=
  match a with
  | Some f => if nonzero f then Float f else Int 0
  | None => Int 0
  end.

(** [[float(md) for md in l]] *)
Fixpoint floats (l : list string) : option (list F) :=
  match l with
  | [] => Some []
  | s :: rest =>
      match float_of_str s with
      | None => None
      | Some f =>
          match floats rest with
          | None => None
          | Some fs => Some (f :: fs)
          end
      end
  end.

Definition parse_mds (s : string) : option (list F) :=
  floats (split "," s).

(** [add_latlon(point, transformer)]: the lookups and the call are inside
    the [try]; only [TypeError] is handled. *)
Definition add_latlon (point : dict F) (transformer : Transformer)
    : exn + dict F :=
  match getitem point "x" with
  | None => inl (KeyError "x")
  | Some x =>
      match getitem point "y" with
      | None => inl (KeyError "y")
      | Some y =>
          match
            match transform transformer x y with
            | inr (lon, lat) => inr (pyfloat lon, pyfloat lat)
            | inl e => if is_TypeError e then inr (PNone, PNone) else inl e
            end
          with
          | inl e => inl e
          | inr (lon, lat) =>
              inr (setitem (setitem point "lat" lat) "lon" lon)
          end
      end
  end.

(** [[add_latlon(p, t) for p in points]].  [add_latlon] updates each
    dictionary in place, so when the comprehension is left by an
    exception the dictionaries already visited stay updated in the list
    [points] still refers to.  The result is the state of those
    dictionaries and the exception, if any. *)
Fixpoint add_latlon_each (points : list (dict F)) (t : Transformer)
    : list (dict F) * option exn :=
  match points with
  | [] => ([], None)
  | p :: rest =>
      match add_latlon p t with
      | inl e => (p :: rest, Some e)
      | inr p' =>
          let (rest', e) := add_latlon_each rest t in (p' :: rest', e)
      end
  end.

Definition required_cols : list string := ["md"; "azi"; "inc"].

(** [required_cols - well_cols] *)
Definition missing (well_cols : list string) : list string :=
  filter (fun c => negb (existsb (String.eqb c) well_cols)) required_cols.

Definition placeholder (md : F) : dict F :=
  [("md", pyfloat md); ("x", PNone); ("y", PNone); ("z", PNone)].

(** The body of the loop over [mds], up to [points.append]. *)
Definition interpolate_point (logger : Logger) (z0 : number F) (well : Well)
    (md : F) : M F (dict F) :=
  emit logger DEBUG "Interpolating point at MD={md}" [AVal (pyfloat md)] ;;;
  match get_point well md with
  | inr p =>
      ret [("md", pyfloat md);
           ("x", pyfloat (Wp.east p));
           ("y", pyfloat (Wp.north p));
           ("z", pyfloat (num_sub z0 (Wp.tvd p)))]
  | inl e =>
      if is_ValueError e then
        emit logger ERROR "Could not interpolate point at MD={md}"
          [AVal (pyfloat md)] ;;;
        ret (placeholder md)
      else raise e
  end.

Fixpoint for_md_in (logger : Logger) (z0 : number F) (well : Well)
    (mds : list F) (points : list (dict F)) : M F (list (dict F)) :=
  match mds with
  | [] => ret points
  | md :: rest =>
      point <- interpolate_point logger z0 well md ;;
      for_md_in logger z0 well rest (points ++ [point])
  end.

(** The final loop [for point in points: logger.debug(f"MD {point['md']}: {point}")]:
    the f-string is evaluated whatever the log level. *)
Fixpoint for_point_in (logger : Logger) (points : list (dict F)) : M F unit :=
  match points with
  | [] => ret tt
  | point :: rest =>
      match getitem point "md" with
      | None => raise (KeyError "md")
      | Some m =>
          emit logger DEBUG "MD {point['md']}: {point}" [AVal m; ADict point] ;;;
          for_point_in logger rest
      end
  end.

(** The block under [# Get WGS84 lat/long (if possible)]. *)
Definition project (logger : Logger) (wkid : option Z) (x0 y0 : number F)
    (points : list (dict F)) : M F (list (dict F)) :=
  let get_latlon := truthy (opt_int wkid) && truthy_num x0 && truthy_num y0 in
  if get_latlon then
    emit logger DEBUG
      "Projecting XY coordinates (WKID {wkid}) to WGS84 lat/lon"
      [AVal (opt_int wkid)] ;;;
    match from_crs wkid with
    | inr t =>
        let (points', e) := add_latlon_each points t in
        match e with
        | None => ret points'
        | Some e =>
            if is_CRSError e then
              emit logger ERROR
                "Could not create a transformation from WKID {wkid} to WGS84"
                [AVal (opt_int wkid)] ;;;
              ret points'
            else raise e
        end
    | inl e =>
        if is_CRSError e then
          emit logger ERROR
            "Could not create a transformation from WKID {wkid} to WGS84"
            [AVal (opt_int wkid)] ;;;
          ret points
        else raise e
    end
  else if truthy (opt_int wkid) then
    emit logger WARNING
      "WKID was supplied without x0/y0, so WGS84 lat/lon cannot be determined"
      [] ;;;
    ret points
  else ret points.

(** [main()], from the parsed arguments on.  The value returned is the
    list [points] that is serialised by [json.dumps] and printed; an
    exception that leaves [main] ends the program before anything is
    printed. *)
Definition main (args : Args.Namespace F) : M F (list (dict F)) :=
  let log_level := if Args.debug args then DEBUG else INFO in
  let logger := get_logger log_level in
  emit logger DEBUG "md: {args.md}" [AVal (PStr (Args.md args))] ;;;
  emit logger DEBUG "csv: {args.csv}" [AVal (PStr (Args.csv args))] ;;;
  emit logger DEBUG "wkid: {args.wkid}" [AVal (opt_int (Args.wkid args))] ;;;
  emit logger DEBUG "x0: {args.x0}" [AVal (opt_float (Args.x0 args))] ;;;
  emit logger DEBUG "y0: {args.y0}" [AVal (opt_float (Args.y0 args))] ;;;
  emit logger DEBUG "z0: {args.z0}" [AVal (opt_float (Args.z0 args))] ;;;
  emit logger DEBUG "azi_adj: {args.azi_adj}"
    [AVal (opt_float (Args.azi_adj args))] ;;;
  emit logger DEBUG "debug: {args.debug}" [AVal (PBool (Args.debug args))] ;;;
  emit logger DEBUG "Parsing args" [] ;;;
  (* [mds] stays unbound when the handler runs *)
  mds <- match parse_mds (Args.md args) with
         | Some l => ret (Some l)
         | None =>
             emit logger ERROR
               "Could not parse `md` parameter. Expecting comma-delimited list of floats."
               [] ;;;
             ret None
         end ;;
  let wkid := Args.wkid args in
  let x0 := or_zero (Args.x0 args) in
  let y0 := or_zero (Args.y0 args) in
  let z0 := or_zero (Args.z0 args) in
  let azi_adj := or_zero (Args.azi_adj args) in
  emit logger DEBUG "Loading input CSV into pd.DataFrame" [] ;;;
  well_df <- lift (read_csv (Args.csv args)) ;;
  emit logger DEBUG "Validating columns in input data" [] ;;;
  let well_cols := columns well_df in
  let missing_cols := missing well_cols in
  match missing_cols with
  | _ :: _ =>
      let err := "Input well data is missing required columns: {missing_cols}" in
      emit logger CRITICAL err [ACols missing_cols] ;;;
      raise (Exception err missing_cols)
  | [] =>
      emit logger DEBUG "Creating well trajectory from input data" [] ;;;
      well <- lift (wp_load well_df x0 y0 azi_adj) ;;
      points <- match mds with
                | None => raise (UnboundLocalError "mds")
                | Some mds => for_md_in logger z0 well mds []
                end ;;
      points <- project logger wkid x0 y0 points ;;
      emit logger DEBUG "Processsed points:" [] ;;;
      for_point_in logger points ;;;
      ret points
  end.

End Program.

(** ** The two number instances *)

(** IEEE binary64, the [float] of Python.  [float(z)] is exact for the
    integers below 2^53; the only [int] that reaches it in [main] is 0. *)
Definition float_of_int (z : Z) : float :=
  match z with
  | Z0 => PrimFloat.zero
  | Zpos _ => PrimFloat.of_uint63 (Uint63.of_Z z)
  | Zneg p => PrimFloat.opp (PrimFloat.of_uint63 (Uint63.of_Z (Zpos p)))
  end.

(** [bool(f)] is [f != 0.0]: both zeros are false, a NaN is true. *)
Definition float_nonzero (f : float) : bool :=
  negb (PrimFloat.eqb f PrimFloat.zero).

#[export] Instance Number_float : Number float := {
  of_int := float_of_int;
  fsub := PrimFloat.sub;
  nonzero := float_nonzero
}.

Definition R_nonzero (r : R) : bool :=
  if Req_dec_T r 0 then false else true.

#[export] Instance Number_R : Number R := {
  of_int := IZR;
  fsub := Rminus;
  nonzero := R_nonzero
}.

(** ** The trajectory solver

    [well_profile] is not part of the source tree; its behaviour is taken
    from sections 3 and 4 of the specification, over the real numbers. *)

Module Solver.
Local Open Scope R_scope.

(** Modelled from the spec: the record SurveyStation of section 3
    (the package's station type is not in the source tree). *)
Record SurveyStation : Type := mkStation {
  md : R;
  inclination_deg : R;
  azimuth_deg : R
}.

(** Modelled from the spec: the record SegmentDisplacement of section 3. *)
Record SegmentDisplacement : Type := mkSegment {
  delta_north : R;
  delta_east : R;
  delta_tvd : R
}.

(** Modelled from the spec: the record PathPoint of section 3. *)
Record PathPoint : Type := mkPathPoint {
  pp_md : R;
  north : R;
  east : R;
  tvd : R
}.

(** Modelled from the spec: the error taxonomy of section 7, without the
    projection error, which belongs to the adapter.  [InternalFault] is
    the internal-consistency fault of section 4.2. *)
Inductive error : Type :=
| ValidationError (constraint : string)
| OutOfRangeError (min_md max_md : R)
| InternalFault.

(** Modelled from the spec: degrees are converted to radians at the
    boundary of the segment solver (section 4.2). *)
Definition radians (deg : R) : R := deg * PI / 180.

(** Modelled from the spec: the dogleg angle of section 4.2, arguments
    in radians. *)
Definition dogleg (inc1 azi1 inc2 azi2 : R) : R :=
  acos (cos (inc2 - inc1) - sin inc1 * sin inc2 * (1 - cos (azi2 - azi1))).

(** Modelled from the spec: the threshold of the straight-segment branch,
    1e-9 radians (section 4.2). *)
Definition dogleg_eps : R := / 1000000000.

(** Modelled from the spec: the ratio factor of section 4.2. *)
Definition ratio_factor (dl : R) : R :=
  if Rlt_dec dl dogleg_eps then 1 else 2 / dl * tan (dl / 2).

(** Modelled from the spec: the minimum-curvature segment solver of
    section 4.2 between two survey points given in degrees; it fails
    when the MD interval is not positive. *)
Definition segment (s1 s2 : SurveyStation) : option SegmentDisplacement :=
  let dmd := md s2 - md s1 in
  if Rle_dec dmd 0 then None
  else
    let inc1 := radians (inclination_deg s1) in
    let azi1 := radians (azimuth_deg s1) in
    let inc2 := radians (inclination_deg s2) in
    let azi2 := radians (azimuth_deg s2) in
    let rf := ratio_factor (dogleg inc1 azi1 inc2 azi2) in
    Some {|
      delta_north := dmd / 2 * rf * (sin inc1 * cos azi1 + sin inc2 * cos azi2);
      delta_east := dmd / 2 * rf * (sin inc1 * sin azi1 + sin inc2 * sin azi2);
      delta_tvd := dmd / 2 * rf * (cos inc1 + cos inc2)
    |}.

(** Modelled from the spec: the straight-segment projection that section 8
    compares the solver with. *)
Definition straight_projection (dmd inc azi : R) : SegmentDisplacement :=
  {| delta_north := dmd * sin (radians inc) * cos (radians azi);
     delta_east := dmd * sin (radians inc) * sin (radians azi);
     delta_tvd := dmd * cos (radians inc) |}.

(** Modelled from the spec: real comparisons as the booleans that the
    validation of section 4.1 branches on. *)
Definition Rltb (x y : R) : bool := if Rlt_dec x y then true else false.

(** Modelled from the spec: [x mod m] on reals, used to wrap azimuths
    into [0, 360) (sections 4.1 and 4.5). *)
Definition Rmod (x m : R) : R := x - m * IZR (Int_part (x / m)).

(** Modelled from the spec: ordering a raw collection of stations by
    increasing MD (section 4.1). *)
Fixpoint insert_by_md (s : SurveyStation) (l : list SurveyStation)
    : list SurveyStation :=
  match l with
  | [] => [s]
  | h :: t => if Rle_dec (md s) (md h) then s :: l else h :: insert_by_md s t
  end.

(** Modelled from the spec: the MD-sorted table of section 4.1. *)
Fixpoint sort_by_md (l : list SurveyStation) : list SurveyStation :=
  match l with
  | [] => []
  | h :: t => insert_by_md h (sort_by_md t)
  end.

(** Modelled from the spec: MD strictly increasing along a table
    (section 3). *)
Fixpoint strictly_increasing (l : list SurveyStation) : bool :=
  match l with
  | [] => true
  | a :: t =>
      match t with
      | [] => true
      | b :: _ => Rltb (md a) (md b) && strictly_increasing t
      end
  end.

(** Modelled from the spec: the azimuth of a station wrapped mod 360
    (section 4.1). *)
Definition normalize (s : SurveyStation) : SurveyStation :=
  {| md := md s;
     inclination_deg := inclination_deg s;
     azimuth_deg := Rmod (azimuth_deg s) 360 |}.

(** Modelled from the spec: construction of the SurveyStationTable from
    raw triples (section 4.1), with the four failing constraints in the
    order the section lists them. *)
Definition survey_station_table (raw : list SurveyStation)
    : error + list SurveyStation :=
  let sorted := sort_by_md raw in
  if (List.length sorted <? 2)%nat then
    inl (ValidationError "fewer than 2 stations")
  else if existsb (fun s => Rltb (md s) 0) sorted then
    inl (ValidationError "negative md")
  else if negb (strictly_increasing sorted) then
    inl (ValidationError "md not strictly increasing")
  else if existsb (fun s => Rltb (inclination_deg s) 0
                            || Rltb 180 (inclination_deg s)) sorted then
    inl (ValidationError "inclination outside [0, 180]")
  else inr (map normalize sorted).

(** Modelled from the spec: the azimuth rotation of the Frame Adjuster
    (section 4.5), added and wrapped mod 360. *)
Definition rotate (azi_adj : R) (s : SurveyStation) : SurveyStation :=
  {| md := md s;
     inclination_deg := inclination_deg s;
     azimuth_deg := Rmod (azimuth_deg s + azi_adj) 360 |}.

(** Modelled from the spec: PathPoint[i] + displacement (section 4.4,
    step 4), the point reached at depth [to_md]. *)
Definition advance (p : PathPoint) (to_md : R) (d : SegmentDisplacement)
    : PathPoint :=
  {| pp_md := to_md;
     north := north p + delta_north d;
     east := east p + delta_east d;
     tvd := tvd p + delta_tvd d |}.

(** Modelled from the spec: the fold of the segment solver over
    consecutive station pairs (section 4.3); [p] is the point of [s]. *)
Fixpoint path_from (p : PathPoint) (s : SurveyStation)
    (rest : list SurveyStation) : option (list PathPoint) :=
  match rest with
  | [] => Some [p]
  | s' :: rest' =>
      match segment s s' with
      | None => None
      | Some d =>
          match path_from (advance p (md s') d) s' rest' with
          | None => None
          | Some ps => Some (p :: ps)
          end
      end
  end.

(** Modelled from the spec: pathPoints() of section 4.3, starting from
    PathPoint[0] = (md of the first station, 0, 0, 0). *)
Definition pathPoints (stations : list SurveyStation)
    : option (list PathPoint) :=
  match stations with
  | [] => Some []
  | s :: rest =>
      path_from {| pp_md := md s; north := 0; east := 0; tvd := 0 |} s rest
  end.

(** Modelled from the spec: the TrajectoryPath of section 3, the station
    table with its parallel sequence of PathPoints. *)
Record TrajectoryPath : Type := mkPath {
  stations : list SurveyStation;
  points : list PathPoint
}.

(** Modelled from the spec: solve(stations, origin, azi_adj) of section 6,
    without the origin, which is applied after interpolation: validate,
    rotate the azimuths, build the path. *)
Definition solve (raw : list SurveyStation) (azi_adj : R)
    : error + TrajectoryPath :=
  match survey_station_table raw with
  | inl e => inl e
  | inr table =>
      let table' := map (rotate azi_adj) table in
      match pathPoints table' with
      | None => inl InternalFault
      | Some ps => inr {| stations := table'; points := ps |}
      end
  end.

(** Modelled from the spec: the scan behind bracket(md) (section 4.3):
    the first interval, counted from [i], whose upper station is at or
    below the query. *)
Fixpoint bracket_from (i : nat) (rest : list SurveyStation) (q : R)
    : option nat :=
  match rest with
  | [] => None
  | s' :: rest' =>
      if Rle_dec q (md s') then Some i else bracket_from (S i) rest' q
  end.

(** Modelled from the spec: bracket(md) of section 4.3; the error
    carries the first and the last station MD. *)
Definition bracket (table : list SurveyStation) (q : R) : error + nat :=
  match table with
  | [] => inl InternalFault
  | s :: rest =>
      let min_md := md s in
      let max_md := md (last table s) in
      if Rlt_dec q min_md then inl (OutOfRangeError min_md max_md)
      else if Rlt_dec max_md q then inl (OutOfRangeError min_md max_md)
      else
        match bracket_from 0 rest q with
        | Some i => inr i
        | None => inl InternalFault
        end
  end.

(** Modelled from the spec: the signed azimuth difference along the
    shorter angular path (section 4.4, step 2). *)
Definition shortest_delta (azi1 azi2 : R) : R :=
  Rmod (azi2 - azi1 + 180) 360 - 180.

(** Modelled from the spec: steps 2 to 4 of the Point Interpolator
    (section 4.4) in the interval that starts at station [i]. *)
Definition interpolate_in (tp : TrajectoryPath) (i : nat) (q : R)
    : error + PathPoint :=
  match nth_error (stations tp) i, nth_error (stations tp) (S i),
        nth_error (points tp) i with
  | Some si, Some sj, Some p =>
      let t := (q - md si) / (md sj - md si) in
      let inc :=
        inclination_deg si + t * (inclination_deg sj - inclination_deg si) in
      let azi :=
        azimuth_deg si + t * shortest_delta (azimuth_deg si) (azimuth_deg sj) in
      match segment si {| md := q; inclination_deg := inc; azimuth_deg := azi |}
      with
      | Some d => inr (advance p q d)
      | None => inl InternalFault
      end
  | _, _, _ => inl InternalFault
  end.

(** Modelled from the spec: the stored point of the station whose MD is
    exactly the query, if there is one (section 4.4, edge cases). *)
Definition stored_point (tp : TrajectoryPath) (q : R) : option PathPoint :=
  find (fun p => if Req_dec_T (pp_md p) q then true else false) (points tp).

(** Modelled from the spec: interpolate(path, md) of sections 4.4 and 6,
    relative to the origin: the range check of bracket, then the stored
    point at a station MD, otherwise steps 2 to 4. *)
Definition interpolate (tp : TrajectoryPath) (q : R) : error + PathPoint :=
  match bracket (stations tp) q with
  | inl e => inl e
  | inr i =>
      match stored_point tp q with
      | Some p => inr p
      | None => interpolate_in tp i q
      end
  end.

End Solver.

(** ** [well_profile] as [main] calls it, on the solver *)

Module WellProfile.
Import Solver.
Local Open Scope R_scope.

(** Modelled from the spec: the table handed over by the tabular loader
    (section 6), its column labels and its raw (md, azi, inc) records;
    [pandas] is not in the source tree. *)
Record DataFrame : Type := mkDataFrame {
  columns : list string;
  records : list SurveyStation
}.

(** Modelled from the spec: the trajectory object returned by
    [wp.load], the path of section 3 anchored at the start point given
    as [set_start]. *)
Record Well : Type := mkWell {
  start_east : R;
  start_north : R;
  path : TrajectoryPath
}.

(** A Python number as a real: the [int] default 0 is the real 0. *)
Definition to_R (n : number R) : R :=
  match n with
  | Int z => IZR z
  | Float f => f
  end.

(** Modelled from the spec: the exception classes under which the errors
    of section 7 reach [main]: the out-of-range error is the [ValueError]
    that the loop over the MDs handles; a validation error keeps its
    constraint. *)
Definition exn_of (e : error) : exn :=
  match e with
  | OutOfRangeError _ _ => ValueError
  | ValidationError c => OtherError "ValidationError" c
  | InternalFault => OtherError "InternalFault" ""
  end.

(** Modelled from the spec: [wp.load(df, set_start, change_azimuth)] as
    solve (section 6) on the records of the table. *)
Definition load (df : DataFrame) (east north change_azimuth : number R)
    : exn + Well :=
  match solve (records df) (to_R change_azimuth) with
  | inl e => inl (exn_of e)
  | inr tp =>
      inr {| start_east := to_R east; start_north := to_R north; path := tp |}
  end.

(** Modelled from the spec: [well.get_point(md)] as interpolate
    (section 6), with the start point added to the horizontal
    displacement. *)
Definition get_point (w : Well) (q : R) : exn + Wp.point R :=
  match interpolate (path w) q with
  | inl e => inl (exn_of e)
  | inr p =>
      inr {| Wp.north := start_north w + north p;
             Wp.east := start_east w + east p;
             Wp.tvd := tvd p |}
  end.

End WellProfile.

(** ** A small world to run [main] in

    A stand-in for the libraries, on floats: decimal integers for
    [float()], one CSV file, a vertical well surveyed from 0 to 1000, and
    a transformer that exists for one WKID only. *)

Module Demo.

Fixpoint digits (s : string) (acc : Z) : option Z :=
  match s with
  | EmptyString => Some acc
  | String c rest =>
      let n := Z.of_nat (nat_of_ascii c) in
      if ((48 <=? n) && (n <=? 57))%Z then digits rest (10 * acc + (n - 48))
      else None
  end.

(** [float(s)] on the strings of decimal digits; every other string is
    refused, as [float] refuses the empty string and words. *)
Definition float_of_str (s : string) : option float :=
  match s with
  | EmptyString => None
  | _ => option_map float_of_int (digits s 0)
  end.

Definition DataFrame : Type := list string.

Definition read_csv (path : string) : exn + DataFrame :=
  if String.eqb path "well.csv" then inr ["md"; "inc"; "azi"]
  else if String.eqb path "depths.csv" then inr ["md"; "tvd"]
  else inl (OtherError "FileNotFoundError" path).

Definition columns (df : DataFrame) : list string := df.

(** The start point of the well. *)
Definition Well : Type := (number float * number float)%type.

Definition wp_load (df : DataFrame) (east north change_azimuth : number float)
    : exn + Well :=
  inr (east, north).

Definition to_float (n : number float) : float :=
  match n with
  | Int z => float_of_int z
  | Float f => f
  end.

(** A vertical well: the horizontal position stays at the start point
    and the TVD is the MD; outside [0, 1000] the query is refused. *)
Definition get_point (w : Well) (q : float) : exn + Wp.point float :=
  if (PrimFloat.leb 0 q && PrimFloat.leb q 1000)%bool then
    inr {| Wp.north := to_float (snd w);
           Wp.east := to_float (fst w);
           Wp.tvd := q |}
  else inl ValueError.

Definition Transformer : Type := Z.

Definition from_crs (wkid : option Z) : exn + Transformer :=
  match wkid with
  | Some 32631%Z => inr 32631%Z
  | _ => inl CRSError
  end.

(** A transform that refuses [None], as a numeric routine does, and
    scales the coordinates otherwise. *)
Definition transform (t : Transformer) (x y : pyval float)
    : exn + (float * float) :=
  match x, y with
  | PNum (Float a), PNum (Float b) =>
      inr (PrimFloat.div a 100000, PrimFloat.div b 100000)
  | _, _ => inl TypeError
  end.

Definition main (args : Args.Namespace float) : M float (list (dict float)) :=
  main float_of_str DataFrame Well Transformer read_csv columns wp_load
    get_point from_crs transform args.

Definition args (md : string) (wkid : option Z) (x0 y0 : option float)
    : Args.Namespace float :=
  {| Args.md := md; Args.csv := "well.csv"; Args.wkid := wkid;
     Args.x0 := x0; Args.y0 := y0; Args.z0 := None; Args.azi_adj := None;
     Args.debug := false |}.

End Demo.

(** The logger [main] sets up for the given arguments. *)
Definition logger_of {F : Type} (args : Args.Namespace F) : Logger :=
  get_logger (if Args.debug args then DEBUG else INFO).

(** ** A surveyed well on the reals

    Two stations 100 apart, both at inclination 90 and azimuth 90: a
    horizontal well heading due east. *)

Module EastWell.
Import Solver.
Local Open Scope R_scope.

Definition s0 : SurveyStation :=
  {| md := 0; inclination_deg := 90; azimuth_deg := 90 |}.
Definition s1 : SurveyStation :=
  {| md := 100; inclination_deg := 90; azimuth_deg := 90 |}.

Definition raw : list SurveyStation := [s1; s0].

Definition trajectory : TrajectoryPath :=
  {| stations := [s0; s1];
     points := [ {| pp_md := 0; north := 0; east := 0; tvd := 0 |};
                 {| pp_md := 100; north := 0; east := 100; tvd := 0 |} ] |}.

Definition df : WellProfile.DataFrame :=
  {| WellProfile.columns := ["md"; "inc"; "azi"]; WellProfile.records := raw |}.

(** The well loaded with [set_start] at east 10, north 20. *)
Definition well : WellProfile.Well :=
  {| WellProfile.start_east := 10; WellProfile.start_north := 20;
     WellProfile.path := trajectory |}.

End EastWell.

(** ** [main] on the trajectory library, with a table of one station *)

Module ShortTable.

Definition df : WellProfile.DataFrame :=
  {| WellProfile.columns := ["md"; "azi"; "inc"];
     WellProfile.records := [EastWell.s0] |}.

Definition read_csv (path : string) : exn + WellProfile.DataFrame := inr df.

Definition float_of_str (s : string) : option R :=
  if String.eqb s "0" then Some 0%R else None.

Definition from_crs (wkid : option Z) : exn + unit := inl CRSError.

Definition transform (t : unit) (x y : pyval R) : exn + (R * R) :=
  inl TypeError.

Definition args : Args.Namespace R :=
  {| Args.md := "0"; Args.csv := "short.csv"; Args.wkid := None;
     Args.x0 := None; Args.y0 := None; Args.z0 := None;
     Args.azi_adj := None; Args.debug := false |}.

Definition main (args : Args.Namespace R) : M R (list (dict R)) :=
  main float_of_str WellProfile.DataFrame WellProfile.Well unit read_csv
    WellProfile.columns WellProfile.load WellProfile.get_point from_crs
    transform args.

End ShortTable.

(** ** Two more tables for [main] on the trajectory library *)

Module NoAzimuth.

(** The stations of the east well in a table without the azi column. *)
Definition df : WellProfile.DataFrame :=
  {| WellProfile.columns := ["md"; "inc"];
     WellProfile.records := EastWell.raw |}.

Definition read_csv (path : string) : exn + WellProfile.DataFrame := inr df.

Definition main (args : Args.Namespace R) : M R (list (dict R)) :=
  main ShortTable.float_of_str WellProfile.DataFrame WellProfile.Well unit
    read_csv WellProfile.columns WellProfile.load WellProfile.get_point
    ShortTable.from_crs ShortTable.transform args.

End NoAzimuth.

Module Unordered.

(** Three vertical stations listed at the depths 0, 200, 100. *)
Definition raw : list Solver.SurveyStation :=
  [ {| Solver.md := 0; Solver.inclination_deg := 0; Solver.azimuth_deg := 0 |};
    {| Solver.md := 200; Solver.inclination_deg := 0; Solver.azimuth_deg := 0 |};
    {| Solver.md := 100; Solver.inclination_deg := 0; Solver.azimuth_deg := 0 |}
  ]%R.

Definition df : WellProfile.DataFrame :=
  {| WellProfile.columns := ["md"; "azi"; "inc"];
     WellProfile.records := raw |}.

Definition read_csv (path : string) : exn + WellProfile.DataFrame := inr df.

Definition main (args : Args.Namespace R) : M R (list (dict R)) :=
  main ShortTable.float_of_str WellProfile.DataFrame WellProfile.Well unit
    read_csv WellProfile.columns WellProfile.load WellProfile.get_point
    ShortTable.from_crs ShortTable.transform args.

End Unordered.

(** ** A projection library with a transformer for every WKID *)

Module Permissive.

Definition from_crs (wkid : option Z) : exn + Demo.Transformer :=
  match wkid with
  | Some w => inr w
  | None => inl CRSError
  end.

Definition main (args : Args.Namespace float) : M float (list (dict float)) :=
  main Demo.float_of_str Demo.DataFrame Demo.Well Demo.Transformer
    Demo.read_csv Demo.columns Demo.wp_load Demo.get_point from_crs
    Demo.transform args.

End Permissive.

(** ** Libraries that fail in ways the program does not handle *)

Module Faulty.

(** A [get_point] that fails on a negative depth with an exception
    other than [ValueError]. *)
Definition get_point (w : Demo.Well) (q : float) : exn + Wp.point float :=
  if PrimFloat.ltb q 0 then inl (OtherError "RuntimeError" "negative depth")
  else Demo.get_point w q.

(** A transform that raises [CRSError] on an empty coordinate. *)
Definition transform (t : Demo.Transformer) (x y : pyval float)
    : exn + (float * float) :=
  match x, y with
  | PNum (Float a), PNum (Float b) =>
      inr (PrimFloat.div a 100000, PrimFloat.div b 100000)
  | _, _ => inl CRSError
  end.

End Faulty.

(** ** Vocabulary for the statements about runs *)

(** The number of occurrences of a character in a string. *)
Fixpoint occurrences (c : ascii) (s : string) : nat :=
  match s with
  | EmptyString => 0
  | String c' rest =>
      if Ascii.eqb c' c then S (occurrences c rest) else occurrences c rest
  end.

Definition is_debug {F : Type} (r : record F) : bool :=
  match levelname r with DEBUG => true | _ => false end.

(** The records of a log that are not DEBUG records. *)
Definition without_debug {F : Type} (l : list (record F)) : list (record F) :=
  filter (fun r => negb (is_debug r)) l.

(** Two computations that end alike and whose logs agree once the DEBUG
    records of the first are left out. *)
Definition same_but_debug {F A : Type} (m m' : M F A) : Prop :=
  outcome m = outcome m' /\ without_debug (log_of m) = log_of m'.

(** The record logged for a depth that [get_point] refuses. *)
Definition refused_record {F : Type} `{Number F} (md : F) : record F :=
  {| levelname := ERROR;
     msg := "Could not interpolate point at MD={md}";
     fields := [AVal (PNum (Float md))] |}.

(** Whether [get_point] refuses a depth with [ValueError]. *)
Definition refused {F Well : Type} (get_point : Well -> F -> exn + Wp.point F)
    (well : Well) (md : F) : bool :=
  match get_point well md with
  | inl e => is_ValueError e
  | inr _ => false
  end.

(** The record the loop of [main] builds for a depth, from what
    [get_point] answers. *)
Definition computed_record {F Well : Type} `{Number F}
    (get_point : Well -> F -> exn + Wp.point F) (z0 : number F) (well : Well)
    (md : F) : dict F :=
  match get_point well md with
  | inr p =>
      [("md", PNum (Float md)); ("x", PNum (Float (Wp.east p)));
       ("y", PNum (Float (Wp.north p)));
       ("z", PNum (Float (num_sub z0 (Wp.tvd p))))]
  | inl _ => [("md", PNum (Float md)); ("x", PNone); ("y", PNone); ("z", PNone)]
  end.

(** The keys of a dictionary, in order. *)
Definition keys {F : Type} (d : dict F) : list string := map fst d.

(** * Theorems *)

(** ** Properties of the segment solver *)

Section SegmentFacts.
Import Solver.
Local Open Scope R_scope.

Lemma dogleg_same_direction (inc azi : R) : dogleg inc azi inc azi = 0.
Proof.
  unfold dogleg.
  replace (inc - inc) with 0 by ring.
  replace (azi - azi) with 0 by ring.
  rewrite cos_0.
  replace (1 - sin inc * sin inc * (1 - 1)) with 1 by ring.
  apply acos_1.
Qed.

Lemma dogleg_eps_pos : 0 < dogleg_eps.
Proof. unfold dogleg_eps. apply Rinv_0_lt_compat. lra. Qed.

Lemma ratio_factor_straight : ratio_factor 0 = 1.
Proof.
  unfold ratio_factor.
  destruct (Rlt_dec 0 dogleg_eps) as [_ | n]; [reflexivity |].
  exfalso. apply n, dogleg_eps_pos.
Qed.

Lemma segment_same_direction (s1 s2 : SurveyStation) :
  md s1 < md s2 ->
  inclination_deg s2 = inclination_deg s1 ->
  azimuth_deg s2 = azimuth_deg s1 ->
  segment s1 s2 =
    Some (straight_projection (md s2 - md s1)
            (inclination_deg s1) (azimuth_deg s1)).
Proof.
  intros Hmd Hinc Hazi. unfold segment, straight_projection.
  destruct (Rle_dec (md s2 - md s1) 0) as [Hle | _]; [lra |].
  rewrite Hinc, Hazi, dogleg_same_direction, ratio_factor_straight.
  f_equal. f_equal; field.
Qed.

(** C7. Between two survey points of identical inclination and azimuth
    with [md s1 < md s2], the minimum-curvature solver, with its dogleg
    angle 0 and its ratio factor 1, returns the straight-segment
    projection delta_north = dmd sin(inc) cos(azi),
    delta_east = dmd sin(inc) sin(azi), delta_tvd = dmd cos(inc). *)
Theorem segment_straight (s1 s2 : SurveyStation) :
  md s1 < md s2 ->
  inclination_deg s2 = inclination_deg s1 ->
  azimuth_deg s2 = azimuth_deg s1 ->
  dogleg (radians (inclination_deg s1)) (radians (azimuth_deg s1))
    (radians (inclination_deg s2)) (radians (azimuth_deg s2)) = 0
  /\ ratio_factor 0 = 1
  /\ segment s1 s2 =
       Some {| delta_north := (md s2 - md s1)
                              * sin (radians (inclination_deg s1))
                              * cos (radians (azimuth_deg s1));
               delta_east := (md s2 - md s1)
                             * sin (radians (inclination_deg s1))
                             * sin (radians (azimuth_deg s1));
               delta_tvd := (md s2 - md s1)
                            * cos (radians (inclination_deg s1)) |}.
Proof.
  intros Hmd Hinc Hazi. repeat split.
  - rewrite Hinc, Hazi. apply dogleg_same_direction.
  - apply ratio_factor_straight.
  - now apply segment_same_direction.
Qed.

End SegmentFacts.


(** ** The monad *)

Section MonadFacts.
Context {F : Type}.

Lemma outcome_emit (logger : Logger) l m (fs : list (fmtarg F)) :
  outcome (emit logger l m fs) = inr tt.
Proof. unfold emit. destruct (isEnabledFor logger l); reflexivity. Qed.

Lemma outcome_bind_inr {A B} (m : M F A) (k : A -> M F B) a :
  outcome m = inr a -> outcome (bind m k) = outcome (k a).
Proof.
  destruct m as [l r]. simpl. intros ->. simpl.
  destruct (k a). reflexivity.
Qed.

Lemma outcome_bind_inl {A B} (m : M F A) (k : A -> M F B) e :
  outcome m = inl e -> outcome (bind m k) = inl e.
Proof. destruct m as [l r]. simpl. intros ->. reflexivity. Qed.

Lemma outcome_emit_bind {B} (logger : Logger) l m (fs : list (fmtarg F))
    (k : unit -> M F B) :
  outcome (bind (emit logger l m fs) k) = outcome (k tt).
Proof. apply outcome_bind_inr, outcome_emit. Qed.

Lemma outcome_lift_bind {A B} (a : A) (k : A -> M F B) :
  outcome (bind (lift (inr a)) k) = outcome (k a).
Proof. now apply outcome_bind_inr. Qed.

Lemma log_bind_inr {A B} (m : M F A) (k : A -> M F B) a :
  outcome m = inr a -> log_of (bind m k) = log_of m ++ log_of (k a).
Proof.
  destruct m as [l r]. simpl. intros ->. simpl.
  destruct (k a). reflexivity.
Qed.

Lemma log_bind_inl {A B} (m : M F A) (k : A -> M F B) e :
  outcome m = inl e -> log_of (bind m k) = log_of m.
Proof. destruct m as [l r]. simpl. intros ->. reflexivity. Qed.

Lemma log_emit_bind {B} (logger : Logger) l m (fs : list (fmtarg F))
    (k : unit -> M F B) :
  log_of (bind (emit logger l m fs) k)
  = log_of (emit logger l m fs) ++ log_of (k tt).
Proof. apply log_bind_inr, outcome_emit. Qed.

Lemma log_prefix_bind {A B} (m : M F A) (k : A -> M F B) r :
  In r (log_of m) -> In r (log_of (bind m k)).
Proof.
  destruct m as [l [e | a]]; simpl; [tauto |].
  destruct (k a). simpl. intros. apply in_or_app. now left.
Qed.

End MonadFacts.

(** ** The loop over the queried depths *)

Section LoopFacts.
Context {F : Type} `{Number F}.
Variable Well : Type.
Variable get_point : Well -> F -> exn + Wp.point F.
Variables (logger : Logger) (z0 : number F) (well : Well).

Local Abbreviation point_at := (interpolate_point Well get_point logger z0 well).
Local Abbreviation loop := (for_md_in Well get_point logger z0 well).

Lemma interpolate_point_ok md p :
  get_point well md = inr p ->
  outcome (point_at md)
  = inr [("md", pyfloat md);
         ("x", pyfloat (Wp.east p));
         ("y", pyfloat (Wp.north p));
         ("z", pyfloat (num_sub z0 (Wp.tvd p)))].
Proof.
  intros Hp. unfold interpolate_point.
  rewrite outcome_emit_bind, Hp. reflexivity.
Qed.

Lemma interpolate_point_ValueError md :
  get_point well md = inl ValueError ->
  outcome (point_at md) = inr (placeholder md).
Proof.
  intros Hp. unfold interpolate_point.
  rewrite outcome_emit_bind, Hp. simpl.
  rewrite outcome_emit_bind. reflexivity.
Qed.

Lemma interpolate_point_md md pt :
  outcome (point_at md) = inr pt -> getitem pt "md" = Some (pyfloat md).
Proof.
  unfold interpolate_point. rewrite outcome_emit_bind.
  destruct (get_point well md) as [e | p].
  - destruct (is_ValueError e).
    + rewrite outcome_emit_bind. simpl. intros [= <-]. reflexivity.
    + simpl. discriminate.
  - simpl. intros [= <-]. reflexivity.
Qed.

Lemma for_md_in_acc mds : forall acc,
  outcome (loop mds acc)
  = match outcome (loop mds []) with
    | inl e => inl e
    | inr ps => inr (acc ++ ps)
    end.
Proof.
  induction mds as [| md rest IH]; intros acc; simpl.
  - now rewrite app_nil_r.
  - destruct (outcome (point_at md)) as [e | pt] eqn:Hpt.
    + now rewrite !(outcome_bind_inl _ _ e Hpt).
    + rewrite !(outcome_bind_inr _ _ pt Hpt).
      rewrite (IH (acc ++ [pt])), (IH [pt]).
      destruct (outcome (loop rest [])) as [e | ps]; [reflexivity |].
      simpl. now rewrite <- app_assoc.
Qed.

Lemma for_md_in_cons md rest :
  outcome (loop (md :: rest) [])
  = match outcome (point_at md) with
    | inl e => inl e
    | inr pt =>
        match outcome (loop rest []) with
        | inl e => inl e
        | inr ps => inr (pt :: ps)
        end
    end.
Proof.
  simpl. destruct (outcome (point_at md)) as [e | pt] eqn:Hpt.
  - now rewrite (outcome_bind_inl _ _ e Hpt).
  - rewrite (outcome_bind_inr _ _ pt Hpt). apply for_md_in_acc.
Qed.

Lemma for_md_in_app l1 l2 :
  outcome (loop (l1 ++ l2) [])
  = match outcome (loop l1 []) with
    | inl e => inl e
    | inr ps1 =>
        match outcome (loop l2 []) with
        | inl e => inl e
        | inr ps2 => inr (ps1 ++ ps2)
        end
    end.
Proof.
  induction l1 as [| md rest IH].
  - simpl. destruct (outcome (loop l2 [])); reflexivity.
  - rewrite <- app_comm_cons, !for_md_in_cons, IH.
    destruct (outcome (point_at md)) as [e | pt]; [reflexivity |].
    destruct (outcome (loop rest [])) as [e | ps1]; [reflexivity |].
    destruct (outcome (loop l2 [])) as [e | ps2]; reflexivity.
Qed.

(** C2. In a batch of queried MDs, a query that [get_point] refuses with
    [ValueError] (an MD outside the surveyed interval) yields the
    placeholder record for that MD: the keys md, x, y, z, with md the
    queried depth and x, y, z null.  The queries before and after it
    are processed as they would be without it, and their records
    surround the placeholder in the result. *)
Theorem out_of_range_isolated (pre post : list F) (md : F) :
  get_point well md = inl ValueError ->
  outcome (point_at md)
  = inr [("md", PNum (Float md)); ("x", PNone); ("y", PNone); ("z", PNone)]
  /\ outcome (loop (pre ++ md :: post) [])
     = match outcome (loop pre []) with
       | inl e => inl e
       | inr before =>
           match outcome (loop post []) with
           | inl e => inl e
           | inr after =>
               inr (before
                    ++ [("md", PNum (Float md)); ("x", PNone); ("y", PNone);
                        ("z", PNone)]
                    :: after)
           end
       end.
Proof.
  intros Hmd.
  pose proof (interpolate_point_ValueError md Hmd) as Hpt.
  split; [exact Hpt |].
  rewrite for_md_in_app, for_md_in_cons, Hpt.
  destruct (outcome (loop pre [])) as [e | ps1]; [reflexivity |].
  destruct (outcome (loop post [])) as [e | ps2]; reflexivity.
Qed.

Lemma for_md_in_md_fields mds : forall pts,
  outcome (loop mds []) = inr pts ->
  map (fun pt => getitem pt "md") pts = map (fun md => Some (pyfloat md)) mds.
Proof.
  induction mds as [| md rest IH]; intros pts.
  - simpl. intros [= <-]. reflexivity.
  - rewrite for_md_in_cons.
    destruct (outcome (point_at md)) as [e | pt] eqn:Hpt; [discriminate |].
    destruct (outcome (loop rest [])) as [e | ps]; [discriminate |].
    intros [= <-]. simpl.
    now rewrite (interpolate_point_md md pt Hpt), (IH ps eq_refl).
Qed.

End LoopFacts.

(** ** Dictionaries *)

Section DictFacts.
Context {F : Type}.

Lemma getitem_setitem_same (d : dict F) k v :
  getitem (setitem d k v) k = Some v.
Proof.
  induction d as [| [k' v'] rest IH]; simpl.
  - now rewrite String.eqb_refl.
  - destruct (String.eqb k' k) eqn:E; simpl; now rewrite E.
Qed.

Lemma getitem_setitem_other (d : dict F) k k' v :
  k <> k' -> getitem (setitem d k v) k' = getitem d k'.
Proof.
  intros Hk. induction d as [| [k0 v0] rest IH]; simpl.
  - destruct (String.eqb_spec k k'); [contradiction | reflexivity].
  - destruct (String.eqb_spec k0 k) as [-> | Hk0]; simpl.
    + destruct (String.eqb_spec k k'); [contradiction | reflexivity].
    + now rewrite IH.
Qed.

End DictFacts.

(** ** Projection to latitude and longitude *)

Section ProjectionFacts.
Context {F : Type} `{Number F}.
Variable Transformer : Type.
Variable from_crs : option Z -> exn + Transformer.
Variable transform : Transformer -> pyval F -> pyval F -> exn + (F * F).

Local Abbreviation add_ll := (add_latlon Transformer transform).
Local Abbreviation add_each := (add_latlon_each Transformer transform).
Local Abbreviation proj := (project Transformer from_crs transform).

(** C3 (amended). For a record that holds x and y: when the transform
    returns, lat and lon are set to the numbers it returned; when it
    raises [TypeError], lat and lon are still set, to [None]; in both
    cases every other key of the record, md, x, y and z among them,
    keeps its value.  Any other exception leaves [add_latlon]. *)
Theorem add_latlon_fields (point : dict F) t x y :
  getitem point "x" = Some x -> getitem point "y" = Some y ->
  match transform t x y with
  | inr (lon, lat) =>
      exists point', add_ll point t = inr point'
        /\ getitem point' "lat" = Some (pyfloat lat)
        /\ getitem point' "lon" = Some (pyfloat lon)
        /\ forall k, k <> "lat" -> k <> "lon" ->
             getitem point' k = getitem point k
  | inl e =>
      if is_TypeError e then
        exists point', add_ll point t = inr point'
          /\ getitem point' "lat" = Some PNone
          /\ getitem point' "lon" = Some PNone
          /\ forall k, k <> "lat" -> k <> "lon" ->
               getitem point' k = getitem point k
      else add_ll point t = inl e
  end.
Proof.
  intros Hx Hy. unfold add_latlon. rewrite Hx, Hy.
  assert (Hset : forall lon lat : pyval F,
    getitem (setitem (setitem point "lat" lat) "lon" lon) "lat" = Some lat
    /\ getitem (setitem (setitem point "lat" lat) "lon" lon) "lon" = Some lon
    /\ forall k, k <> "lat" -> k <> "lon" ->
         getitem (setitem (setitem point "lat" lat) "lon" lon) k
         = getitem point k).
  { intros lon lat. repeat split.
    - rewrite getitem_setitem_other by discriminate.
      apply getitem_setitem_same.
    - apply getitem_setitem_same.
    - intros k Hlat Hlon.
      rewrite !getitem_setitem_other by congruence. reflexivity. }
  destruct (transform t x y) as [e | [lon lat]].
  - destruct (is_TypeError e); [| reflexivity].
    eexists. split; [reflexivity | apply Hset].
  - eexists. split; [reflexivity | apply Hset].
Qed.

Lemma project_on (logger : Logger) wkid (x0 y0 : number F) points :
  truthy (F := F) (opt_int wkid) && truthy_num x0 && truthy_num y0 = true ->
  outcome (proj logger wkid x0 y0 points)
  = match from_crs wkid with
    | inr t =>
        match add_each points t with
        | (points', None) => inr points'
        | (points', Some e) => if is_CRSError e then inr points' else inl e
        end
    | inl e => if is_CRSError e then inr points else inl e
    end.
Proof.
  intros Hg. unfold project. rewrite Hg, outcome_emit_bind.
  destruct (from_crs wkid) as [e | t].
  - destruct (is_CRSError e); [| reflexivity].
    now rewrite outcome_emit_bind.
  - destruct (add_each points t) as [points' [e |]]; [| reflexivity].
    destruct (is_CRSError e); [| reflexivity].
    now rewrite outcome_emit_bind.
Qed.

End ProjectionFacts.

Section ProjectionGuard.
Context {F : Type} `{Number F}.




Lemma project_off (Transformer : Type)
    (from_crs : option Z -> exn + Transformer)
    (transform : Transformer -> pyval F -> pyval F -> exn + (F * F))
    (logger : Logger) wkid (x0 y0 : number F) points :
  truthy (F := F) (opt_int wkid) && truthy_num x0 && truthy_num y0 = false ->
  outcome (project Transformer from_crs transform logger wkid x0 y0 points)
  = inr points.
Proof.
  intros Hg. unfold project. rewrite Hg.
  destruct (truthy (opt_int wkid)); [| reflexivity].
  now rewrite outcome_emit_bind.
Qed.



End ProjectionGuard.

(** ** The whole of [main] *)

Section MainFacts.
Context {F : Type} `{Number F}.
Variable float_of_str : string -> option F.
Variables DataFrame Well Transformer : Type.
Variable read_csv : string -> exn + DataFrame.
Variable columns : DataFrame -> list string.
Variable wp_load : DataFrame -> number F -> number F -> number F -> exn + Well.
Variable get_point : Well -> F -> exn + Wp.point F.
Variable from_crs : option Z -> exn + Transformer.
Variable transform : Transformer -> pyval F -> pyval F -> exn + (F * F).

Local Abbreviation run :=
  (main float_of_str DataFrame Well Transformer read_csv columns wp_load
     get_point from_crs transform).
Local Abbreviation parse := (parse_mds float_of_str).
Local Abbreviation loop := (for_md_in Well get_point).
Local Abbreviation proj := (project Transformer from_crs transform).

(** The outcome of [main], stage by stage. *)
Lemma main_outcome (args : Args.Namespace F) :
  outcome (run args)
  = match read_csv (Args.csv args) with
    | inl e => inl e
    | inr well_df =>
        match missing (columns well_df) with
        | c :: cs =>
            inl (Exception
                   "Input well data is missing required columns: {missing_cols}"
                   (c :: cs))
        | [] =>
            match wp_load well_df (or_zero (Args.x0 args))
                    (or_zero (Args.y0 args)) (or_zero (Args.azi_adj args)) with
            | inl e => inl e
            | inr well =>
                match parse (Args.md args) with
                | None => inl (UnboundLocalError "mds")
                | Some mds =>
                    match outcome (loop (logger_of args)
                                     (or_zero (Args.z0 args)) well mds []) with
                    | inl e => inl e
                    | inr points =>
                        match outcome (proj (logger_of args) (Args.wkid args)
                                         (or_zero (Args.x0 args))
                                         (or_zero (Args.y0 args)) points) with
                        | inl e => inl e
                        | inr points' =>
                            match outcome (for_point_in (logger_of args) points')
                            with
                            | inl e => inl e
                            | inr _ => inr points'
                            end
                        end
                    end
                end
            end
        end
    end.
Proof.
  unfold main, logger_of. rewrite !outcome_emit_bind.
  set (logger := get_logger (if Args.debug args then DEBUG else INFO)).
  match goal with
  | |- outcome (bind ?m ?k) = _ =>
      assert (Hm : outcome m = inr (parse (Args.md args)))
  end.
  { destruct (parse (Args.md args)); [reflexivity |].
    now rewrite outcome_emit_bind. }
  rewrite (outcome_bind_inr _ _ _ Hm). clear Hm.
  rewrite outcome_emit_bind.
  destruct (read_csv (Args.csv args)) as [e | well_df]; [reflexivity |].
  rewrite outcome_lift_bind, outcome_emit_bind.
  destruct (missing (columns well_df)) as [| c cs].
  2: { now rewrite outcome_emit_bind. }
  rewrite outcome_emit_bind.
  destruct (wp_load well_df _ _ _) as [e | well]; [reflexivity |].
  rewrite outcome_lift_bind.
  destruct (parse (Args.md args)) as [mds |]; [| reflexivity].
  destruct (outcome (loop logger (or_zero (Args.z0 args)) well mds []))
    as [e | points] eqn:Hloop.
  { now rewrite (outcome_bind_inl _ _ e Hloop). }
  rewrite (outcome_bind_inr _ _ points Hloop).
  destruct (outcome (proj logger (Args.wkid args) (or_zero (Args.x0 args))
                       (or_zero (Args.y0 args)) points))
    as [e | points'] eqn:Hproj.
  { now rewrite (outcome_bind_inl _ _ e Hproj). }
  rewrite (outcome_bind_inr _ _ points' Hproj), outcome_emit_bind.
  destruct (outcome (for_point_in logger points')) as [e | []] eqn:Hfor.
  { now rewrite (outcome_bind_inl _ _ e Hfor). }
  now rewrite (outcome_bind_inr _ _ tt Hfor).
Qed.

Lemma log_after_emit {B} (logger : Logger) l m (fs : list (fmtarg F))
    (k : unit -> M F B) r :
  In r (log_of (k tt)) -> In r (log_of (bind (emit logger l m fs) k)).
Proof.
  intros Hr. rewrite log_emit_bind. apply in_or_app. now right.
Qed.

(** C9. When the md argument is not a comma-delimited list of floats,
    [main] logs the failure and goes on with [mds] unbound: the outcome
    is never a printed result; it is the failure of reading the CSV, of
    the column check or of loading the trajectory when one of these
    fails, and otherwise the [UnboundLocalError] (a [NameError]) raised
    where [mds] is first read. *)
Theorem unparsed_md_unbound (args : Args.Namespace F) :
  parse (Args.md args) = None ->
  In {| levelname := ERROR;
        msg := "Could not parse `md` parameter. Expecting comma-delimited list of floats.";
        fields := [] |} (log_of (run args))
  /\ outcome (run args)
     = match read_csv (Args.csv args) with
       | inl e => inl e
       | inr well_df =>
           match missing (columns well_df) with
           | c :: cs =>
               inl (Exception
                      "Input well data is missing required columns: {missing_cols}"
                      (c :: cs))
           | [] =>
               match wp_load well_df (or_zero (Args.x0 args))
                       (or_zero (Args.y0 args)) (or_zero (Args.azi_adj args))
               with
               | inl e => inl e
               | inr _ => inl (UnboundLocalError "mds")
               end
           end
       end.
Proof.
  intros Hparse. split.
  - unfold main. do 9 apply log_after_emit.
    apply log_prefix_bind. rewrite Hparse.
    destruct (Args.debug args); simpl; now left.
  - rewrite main_outcome, Hparse. reflexivity.
Qed.


Local Abbreviation add_ll := (add_latlon Transformer transform).
Local Abbreviation add_each := (add_latlon_each Transformer transform).
Local Abbreviation md_of := (fun pt : dict F => getitem pt "md").

Lemma add_latlon_keeps (p p' : dict F) t k :
  add_ll p t = inr p' -> k <> "lat" -> k <> "lon" ->
  getitem p' k = getitem p k.
Proof.
  unfold add_latlon.
  destruct (getitem p "x") as [x |]; [| discriminate].
  destruct (getitem p "y") as [y |]; [| discriminate].
  intros Hadd Hlat Hlon.
  assert (Hp' : exists lon lat,
             p' = setitem (setitem p "lat" lat) "lon" lon).
  { destruct (transform t x y) as [e | [lon lat]].
    - destruct (is_TypeError e); [| discriminate].
      injection Hadd as <-. now exists PNone, PNone.
    - injection Hadd as <-. now exists (pyfloat lon), (pyfloat lat). }
  destruct Hp' as (lon & lat & ->).
  rewrite !getitem_setitem_other by congruence. reflexivity.
Qed.

Lemma add_latlon_each_md (ps : list (dict F)) t : forall ps' e,
  add_each ps t = (ps', e) -> map md_of ps' = map md_of ps.
Proof.
  induction ps as [| p rest IH]; intros ps' e; simpl.
  - intros [= <- _]. reflexivity.
  - destruct (add_ll p t) as [ex | p1] eqn:Hp.
    + intros [= <- _]. reflexivity.
    + destruct (add_each rest t) as [rest' e'] eqn:Hrest.
      intros [= <- _]. simpl.
      rewrite (IH rest' e' eq_refl).
      f_equal. apply (add_latlon_keeps p p1 t); [assumption | discriminate ..].
Qed.

Lemma project_md (logger : Logger) wkid (x0 y0 : number F) points points' :
  outcome (proj logger wkid x0 y0 points) = inr points' ->
  map md_of points' = map md_of points.
Proof.
  destruct (truthy (F := F) (opt_int wkid) && truthy_num x0 && truthy_num y0)
    eqn:Hg.
  - rewrite (project_on _ _ _ _ _ _ _ _ Hg).
    destruct (from_crs wkid) as [e | t].
    + destruct (is_CRSError e); [| discriminate]. now intros [= <-].
    + destruct (add_each points t) as [ps [e |]] eqn:Heach.
      * destruct (is_CRSError e); [| discriminate]. intros [= <-].
        apply (add_latlon_each_md _ _ _ _ Heach).
      * intros [= <-]. apply (add_latlon_each_md _ _ _ _ Heach).
  - rewrite (project_off _ _ _ _ _ _ _ _ Hg). now intros [= <-].
Qed.

Lemma for_point_in_ok (logger : Logger) (points : list (dict F)) :
  Forall (fun pt => md_of pt <> None) points ->
  outcome (for_point_in logger points) = inr tt.
Proof.
  induction 1 as [| pt rest Hpt _ IH]; simpl; [reflexivity |].
  destruct (getitem pt "md") as [m |]; [| contradiction].
  now rewrite outcome_emit_bind.
Qed.

Lemma md_fields_present (points : list (dict F)) (mds : list F) :
  map md_of points = map (fun md => Some (pyfloat md)) mds ->
  Forall (fun pt => md_of pt <> None) points.
Proof.
  revert mds. induction points as [| pt rest IH]; intros [| md mds];
    simpl; try discriminate; constructor.
  - injection H0 as -> _. discriminate.
  - injection H0 as _ Hrest. now apply (IH mds).
Qed.

Local Abbreviation has_xy :=
  (fun pt : dict F => getitem pt "x" <> None /\ getitem pt "y" <> None).

Lemma for_md_in_total (logger : Logger) (z0 : number F) well mds :
  (forall md e, In md mds -> get_point well md = inl e -> e = ValueError) ->
  exists points,
    outcome (loop logger z0 well mds []) = inr points
    /\ Forall has_xy points.
Proof.
  induction mds as [| md rest IH]; intros Hget.
  - exists []. split; [reflexivity | constructor].
  - destruct IH as (ps & Hps & Hxy).
    { intros md' e Hin. apply Hget. now right. }
    rewrite for_md_in_cons, Hps.
    destruct (get_point well md) as [e | p] eqn:Hp.
    + rewrite (Hget md e (or_introl eq_refl) Hp) in Hp.
      rewrite (interpolate_point_ValueError _ _ _ _ _ _ Hp).
      eexists. split; [reflexivity |].
      constructor; [split; discriminate | exact Hxy].
    + rewrite (interpolate_point_ok _ _ _ _ _ _ _ Hp).
      eexists. split; [reflexivity |].
      constructor; [split; discriminate | exact Hxy].
Qed.

Lemma add_latlon_total (p : dict F) t :
  has_xy p ->
  (forall x y e, transform t x y = inl e -> e = TypeError \/ e = CRSError) ->
  (exists p', add_ll p t = inr p' /\ has_xy p')
  \/ add_ll p t = inl CRSError.
Proof.
  intros [Hx Hy] Htr.
  assert (Hset : forall lon lat : pyval F,
             has_xy (setitem (setitem p "lat" lat) "lon" lon)).
  { intros lon lat. rewrite !getitem_setitem_other by discriminate.
    now split. }
  unfold add_latlon.
  destruct (getitem p "x") as [x |]; [| contradiction].
  destruct (getitem p "y") as [y |]; [| contradiction].
  destruct (transform t x y) as [e | [lon lat]] eqn:Ht.
  - destruct (Htr x y e Ht) as [-> | ->]; simpl.
    + left. eexists. split; [reflexivity | apply Hset].
    + now right.
  - left. eexists. split; [reflexivity | apply Hset].
Qed.

Lemma add_latlon_each_total (ps : list (dict F)) t :
  Forall has_xy ps ->
  (forall x y e, transform t x y = inl e -> e = TypeError \/ e = CRSError) ->
  exists ps', add_each ps t = (ps', None) \/ add_each ps t = (ps', Some CRSError).
Proof.
  intros Hxy Htr. induction Hxy as [| p rest Hp _ IH]; simpl.
  - exists []. now left.
  - destruct (add_latlon_total p t Hp Htr) as [(p' & -> & _) | ->].
    + destruct IH as (rest' & [-> | ->]); eexists; [left | right]; reflexivity.
    + eexists. right. reflexivity.
Qed.

Lemma project_total (logger : Logger) wkid (x0 y0 : number F) points :
  Forall has_xy points ->
  (forall e, from_crs wkid = inl e -> e = CRSError) ->
  (forall t x y e, transform t x y = inl e -> e = TypeError \/ e = CRSError) ->
  exists points', outcome (proj logger wkid x0 y0 points) = inr points'.
Proof.
  intros Hxy Hcrs Htr.
  destruct (truthy (F := F) (opt_int wkid) && truthy_num x0 && truthy_num y0)
    eqn:Hg.
  - rewrite (project_on _ _ _ _ _ _ _ _ Hg).
    destruct (from_crs wkid) as [e | t] eqn:Hfc.
    + rewrite (Hcrs e eq_refl). now exists points.
    + destruct (add_latlon_each_total points t Hxy (Htr t)) as (ps & [-> | ->]);
        now exists ps.
  - rewrite (project_off _ _ _ _ _ _ _ _ Hg). now exists points.
Qed.

(** C10. When the md argument parses to the list [mds], whatever [main]
    prints has one record per element of [mds], in the same order, whose
    md field is that element; and [main] does print when the CSV loads
    with the required columns, the trajectory is built, and the libraries
    fail only in the ways the program handles: [ValueError] from
    [get_point], [CRSError] from [from_crs], [TypeError] or [CRSError]
    from the transform. *)
Theorem one_record_per_md (args : Args.Namespace F) (mds : list F) :
  parse (Args.md args) = Some mds ->
  (forall points,
     outcome (run args) = inr points ->
     map md_of points = map (fun md => Some (pyfloat md)) mds)
  /\ (forall well_df well,
        read_csv (Args.csv args) = inr well_df ->
        missing (columns well_df) = [] ->
        wp_load well_df (or_zero (Args.x0 args)) (or_zero (Args.y0 args))
          (or_zero (Args.azi_adj args)) = inr well ->
        (forall md e, In md mds -> get_point well md = inl e ->
                      e = ValueError) ->
        (forall e, from_crs (Args.wkid args) = inl e -> e = CRSError) ->
        (forall t x y e, transform t x y = inl e ->
                         e = TypeError \/ e = CRSError) ->
        exists points,
          outcome (run args) = inr points
          /\ map md_of points = map (fun md => Some (pyfloat md)) mds).
Proof.
  intros Hparse.
  assert (Hpart : forall points,
             outcome (run args) = inr points ->
             map md_of points = map (fun md => Some (pyfloat md)) mds).
  { intros points. rewrite main_outcome, Hparse.
    destruct (read_csv (Args.csv args)) as [e | well_df]; [discriminate |].
    destruct (missing (columns well_df)); [| discriminate].
    destruct (wp_load well_df _ _ _) as [e | well]; [discriminate |].
    destruct (outcome (loop _ _ well mds [])) as [e | ps] eqn:Hloop;
      [discriminate |].
    destruct (outcome (proj _ _ _ _ ps)) as [e | ps'] eqn:Hproj;
      [discriminate |].
    destruct (outcome (for_point_in _ ps')) as [e | u]; [discriminate |].
    intros [= <-].
    rewrite (project_md _ _ _ _ _ _ Hproj).
    apply (for_md_in_md_fields _ _ _ _ _ _ _ Hloop). }
  split; [exact Hpart |].
  intros well_df well Hread Hcols Hload Hget Hcrs Htr.
  destruct (for_md_in_total (logger_of args) (or_zero (Args.z0 args))
              well mds Hget) as (ps & Hloop & Hxy).
  destruct (project_total (logger_of args) (Args.wkid args)
              (or_zero (Args.x0 args)) (or_zero (Args.y0 args)) ps
              Hxy Hcrs Htr) as (ps' & Hproj).
  assert (Hmd : map md_of ps' = map (fun md => Some (pyfloat md)) mds).
  { rewrite (project_md _ _ _ _ _ _ Hproj).
    apply (for_md_in_md_fields _ _ _ _ _ _ _ Hloop). }
  exists ps'. split; [| exact Hmd].
  rewrite main_outcome, Hread, Hcols, Hload, Hparse, Hloop, Hproj.
  now rewrite (for_point_in_ok _ _ (md_fields_present _ _ Hmd)).
Qed.

End MainFacts.

(** ** The station table *)

Section TableFacts.
Import Solver.
Local Open Scope R_scope.

Lemma Rltb_true x y : Rltb x y = true <-> x < y.
Proof.
  unfold Rltb. destruct (Rlt_dec x y); split; auto; discriminate.
Qed.

Lemma Rltb_false x y : Rltb x y = false <-> y <= x.
Proof.
  unfold Rltb. destruct (Rlt_dec x y); split; auto; try discriminate; lra.
Qed.

Lemma insert_by_md_length s l :
  List.length (insert_by_md s l) = S (List.length l).
Proof.
  induction l as [| h t IH]; simpl; [reflexivity |].
  destruct (Rle_dec (md s) (md h)); simpl; [reflexivity | now rewrite IH].
Qed.

Lemma sort_by_md_length l : List.length (sort_by_md l) = List.length l.
Proof.
  induction l as [| h t IH]; simpl; [reflexivity |].
  now rewrite insert_by_md_length, IH.
Qed.

Lemma insert_by_md_In s x l : In x (insert_by_md s l) <-> x = s \/ In x l.
Proof.
  induction l as [| h t IH]; simpl.
  - intuition.
  - destruct (Rle_dec (md s) (md h)); simpl; [intuition |].
    rewrite IH. intuition.
Qed.

Lemma sort_by_md_In x l : In x (sort_by_md l) <-> In x l.
Proof.
  induction l as [| h t IH]; simpl; [tauto |].
  rewrite insert_by_md_In, IH. intuition.
Qed.

Lemma survey_station_table_error raw e :
  survey_station_table raw = inl e -> exists c, e = ValidationError c.
Proof.
  unfold survey_station_table.
  repeat match goal with
         | |- context [if ?b then _ else _] => destruct b
         end; intros [= <-]; eauto.
Qed.

Lemma survey_station_table_ok raw table :
  survey_station_table raw = inr table ->
  table = map normalize (sort_by_md raw)
  /\ (2 <= List.length raw)%nat
  /\ strictly_increasing (sort_by_md raw) = true
  /\ forall s, In s raw -> 0 <= md s /\ 0 <= inclination_deg s <= 180.
Proof.
  unfold survey_station_table.
  destruct (List.length (sort_by_md raw) <? 2)%nat eqn:Hlen; [discriminate |].
  destruct (existsb (fun s => Rltb (md s) 0) (sort_by_md raw)) eqn:Hneg;
    [discriminate |].
  destruct (strictly_increasing (sort_by_md raw)) eqn:Hinc; [| discriminate].
  simpl.
  destruct (existsb (fun s => Rltb (inclination_deg s) 0
                              || Rltb 180 (inclination_deg s))
              (sort_by_md raw)) eqn:Hdom; [discriminate |].
  intros [= <-]. split; [reflexivity |]. repeat split.
  - apply Nat.ltb_ge in Hlen. now rewrite sort_by_md_length in Hlen.
  - rewrite <- not_true_iff_false, existsb_exists in Hneg.
    apply Rnot_lt_le. intros Hlt. apply Hneg.
    exists s. split; [now apply sort_by_md_In | now apply Rltb_true].
  - rewrite <- not_true_iff_false, existsb_exists in Hdom.
    apply Rnot_lt_le. intros Hlt. apply Hdom.
    exists s. split; [now apply sort_by_md_In |].
    apply orb_true_iff. left. now apply Rltb_true.
  - rewrite <- not_true_iff_false, existsb_exists in Hdom.
    apply Rnot_lt_le. intros Hlt. apply Hdom.
    exists s. split; [now apply sort_by_md_In |].
    apply orb_true_iff. right. now apply Rltb_true.
Qed.

(** What the table construction refuses. *)
Lemma survey_station_table_rejects raw :
  (List.length raw < 2)%nat
  \/ strictly_increasing (sort_by_md raw) = false
  \/ (exists s, In s raw
                /\ (inclination_deg s < 0 \/ 180 < inclination_deg s)) ->
  exists c, survey_station_table raw = inl (ValidationError c).
Proof.
  intros Hbad.
  destruct (survey_station_table raw) as [e | table] eqn:Htab.
  - destruct (survey_station_table_error raw e Htab) as (c & ->). now exists c.
  - exfalso.
    destruct (survey_station_table_ok raw table Htab)
      as (_ & Hlen & Hinc & Hdom).
    destruct Hbad as [Hshort | [Hdup | (s & Hs & Hout)]].
    + lia.
    + congruence.
    + destruct (Hdom s Hs) as (_ & Hlo & Hhi). lra.
Qed.


End TableFacts.

(** ** Bracketing and interpolation *)

Section PathFacts.
Import Solver.
Local Open Scope R_scope.

Lemma strictly_increasing_map (f : SurveyStation -> SurveyStation) l :
  (forall s, md (f s) = md s) ->
  strictly_increasing (map f l) = strictly_increasing l.
Proof.
  intros Hf. induction l as [| a t IH]; [reflexivity |].
  destruct t as [| b t']; [reflexivity |].
  change (Rltb (md (f a)) (md (f b)) && strictly_increasing (map f (b :: t'))
          = Rltb (md a) (md b) && strictly_increasing (b :: t')).
  now rewrite IH, !Hf.
Qed.

Lemma strictly_increasing_tail a t :
  strictly_increasing (a :: t) = true -> strictly_increasing t = true.
Proof.
  destruct t as [| b t']; [reflexivity |].
  intros Hinc. now apply andb_true_iff in Hinc.
Qed.

Lemma strictly_increasing_head_lt a t :
  strictly_increasing (a :: t) = true -> forall s, In s t -> md a < md s.
Proof.
  revert a. induction t as [| b t' IH]; intros a Hinc s Hs; [contradiction |].
  apply andb_true_iff in Hinc. destruct Hinc as [Hab Ht].
  apply Rltb_true in Hab.
  destruct Hs as [<- | Hs]; [assumption |].
  apply Rlt_trans with (md b); [assumption | now apply IH].
Qed.

Lemma strictly_increasing_le_last l d :
  strictly_increasing l = true -> forall s, In s l -> md s <= md (last l d).
Proof.
  induction l as [| a t IH]; intros Hinc s Hs; [contradiction |].
  destruct t as [| b t'].
  - destruct Hs as [<- | []]. simpl. lra.
  - change (last (a :: b :: t') d) with (last (b :: t') d).
    pose proof (strictly_increasing_tail _ _ Hinc) as Ht.
    destruct Hs as [<- | Hs]; [| now apply IH].
    apply Rle_trans with (md b); [| apply IH; [assumption | now left]].
    left. apply (strictly_increasing_head_lt _ _ Hinc). now left.
Qed.

Lemma path_from_mds rest : forall p s ps,
  path_from p s rest = Some ps -> map pp_md ps = pp_md p :: map md rest.
Proof.
  induction rest as [| s' rest' IH]; intros p s ps; simpl.
  - now intros [= <-].
  - destruct (segment s s') as [d |]; [| discriminate].
    destruct (path_from _ s' rest') as [ps' |] eqn:Hps; [| discriminate].
    intros [= <-]. simpl. now rewrite (IH _ _ _ Hps).
Qed.

Lemma pathPoints_mds table ps :
  pathPoints table = Some ps -> map pp_md ps = map md table.
Proof.
  destruct table as [| s rest]; simpl.
  - now intros [= <-].
  - intros Hps. now rewrite (path_from_mds _ _ _ _ Hps).
Qed.

Lemma bracket_from_some rest : forall i q d,
  rest <> [] -> q <= md (last rest d) ->
  exists k, bracket_from i rest q = Some k.
Proof.
  induction rest as [| s' rest' IH]; intros i q d Hne Hq; [contradiction |].
  simpl. destruct (Rle_dec q (md s')) as [_ | Hgt]; [now exists i |].
  destruct rest' as [| s'' rest''].
  - simpl in Hq. contradiction.
  - apply (IH (S i) q d); [discriminate | exact Hq].
Qed.

Lemma bracket_in_range s0 rest q :
  rest <> [] -> md s0 <= q <= md (last (s0 :: rest) s0) ->
  exists k, bracket (s0 :: rest) q = inr k.
Proof.
  intros Hne [Hlo Hhi]. unfold bracket.
  destruct (Rlt_dec q (md s0)); [lra |].
  destruct (Rlt_dec (md (last (s0 :: rest) s0)) q); [lra |].
  destruct (bracket_from_some rest 0%nat q s0 Hne) as (k & ->).
  - destruct rest; [contradiction | exact Hhi].
  - now exists k.
Qed.

Lemma stored_point_first ps : forall table i s p,
  map pp_md ps = map md table ->
  strictly_increasing table = true ->
  nth_error table i = Some s -> nth_error ps i = Some p ->
  find (fun p => if Req_dec_T (pp_md p) (md s) then true else false) ps
  = Some p.
Proof.
  induction ps as [| pa ps' IH]; intros table i s p Hmd Hinc Hs Hp.
  - destruct i; discriminate.
  - destruct table as [| a t]; [discriminate |].
    injection Hmd as Ha Ht. simpl.
    destruct i as [| i].
    + injection Hs as <-. injection Hp as <-.
      destruct (Req_dec_T (pp_md pa) (md a)); [reflexivity | contradiction].
    + simpl in Hs, Hp.
      pose proof (strictly_increasing_head_lt _ _ Hinc s
                    (nth_error_In _ _ Hs)) as Hlt.
      destruct (Req_dec_T (pp_md pa) (md s)); [lra |].
      apply (IH t i); try assumption.
      now apply strictly_increasing_tail in Hinc.
Qed.

(** C5. A query below the first station MD or above the last station MD
    makes the interpolation fail with the out-of-range error, which
    carries the first and the last station MD; the trajectory object
    raises it to [main] as the [ValueError] the batch loop handles. *)
Theorem interpolate_out_of_range (w : WellProfile.Well) s0 rest q :
  stations (WellProfile.path w) = s0 :: rest ->
  q < md s0 \/ md (last (s0 :: rest) s0) < q ->
  interpolate (WellProfile.path w) q
  = inl (OutOfRangeError (md s0) (md (last (s0 :: rest) s0)))
  /\ WellProfile.get_point w q = inl ValueError.
Proof.
  intros Hst Hq.
  assert (Hi : interpolate (WellProfile.path w) q
               = inl (OutOfRangeError (md s0) (md (last (s0 :: rest) s0)))).
  { unfold interpolate, bracket. rewrite Hst.
    destruct (Rlt_dec q (md s0)); [reflexivity |].
    destruct (Rlt_dec (md (last (s0 :: rest) s0)) q); [reflexivity |].
    destruct Hq; contradiction. }
  split; [exact Hi |].
  unfold WellProfile.get_point. now rewrite Hi.
Qed.

Lemma interpolate_at_station table ps i s :
  strictly_increasing table = true ->
  (2 <= List.length table)%nat ->
  map pp_md ps = map md table ->
  nth_error table i = Some s ->
  exists p,
    nth_error ps i = Some p /\ pp_md p = md s
    /\ interpolate {| stations := table; points := ps |} (md s) = inr p.
Proof.
  intros Hinc Hlen Hmd Hs.
  assert (Hp : exists p, nth_error ps i = Some p /\ pp_md p = md s).
  { pose proof (map_nth_error md i table Hs) as Hnth.
    rewrite <- Hmd in Hnth.
    destruct (nth_error ps i) as [p |] eqn:Hp.
    - exists p. split; [reflexivity |].
      rewrite (map_nth_error pp_md i ps Hp) in Hnth. congruence.
    - apply nth_error_None in Hp.
      assert (Hsome : nth_error (map pp_md ps) i <> None) by congruence.
      apply nth_error_Some in Hsome. rewrite length_map in Hsome. lia. }
  destruct Hp as (p & Hp & Hpmd). exists p. repeat split; try assumption.
  destruct table as [| s0 rest]; [destruct i; discriminate |].
  assert (Hne : rest <> []) by (destruct rest; simpl in Hlen; [lia | discriminate]).
  destruct (bracket_in_range s0 rest (md s) Hne) as (k & Hk).
  { split.
    - destruct i as [| i]; simpl in Hs.
      + injection Hs as <-. lra.
      + left. apply (strictly_increasing_head_lt _ _ Hinc).
        now apply nth_error_In in Hs.
    - apply strictly_increasing_le_last; [assumption |].
      now apply nth_error_In in Hs. }
  unfold interpolate, stored_point. simpl stations. simpl points.
  rewrite Hk.
  now rewrite (stored_point_first ps (s0 :: rest) i s p Hmd Hinc Hs Hp).
Qed.

Lemma cos_period_Z x (k : Z) : cos (x + 2 * IZR k * PI) = cos x.
Proof.
  destruct (Z_le_gt_dec 0 k) as [Hk | Hk].
  - rewrite <- (Z2Nat.id k Hk), <- INR_IZR_INZ. apply cos_period.
  - rewrite <- (cos_period (x + 2 * IZR k * PI) (Z.to_nat (- k))).
    f_equal. rewrite INR_IZR_INZ, Z2Nat.id by lia. rewrite opp_IZR. ring.
Qed.

Lemma sin_period_Z x (k : Z) : sin (x + 2 * IZR k * PI) = sin x.
Proof.
  destruct (Z_le_gt_dec 0 k) as [Hk | Hk].
  - rewrite <- (Z2Nat.id k Hk), <- INR_IZR_INZ. apply sin_period.
  - rewrite <- (sin_period (x + 2 * IZR k * PI) (Z.to_nat (- k))).
    f_equal. rewrite INR_IZR_INZ, Z2Nat.id by lia. rewrite opp_IZR. ring.
Qed.

Lemma radians_turns a (k : Z) :
  radians (a + 360 * IZR k) = radians a + 2 * IZR k * PI.
Proof. unfold radians. field. Qed.

(** Whole turns added to the azimuth of the far end do not change the
    segment. *)
Lemma segment_azimuth_turns s1 s2 (k : Z) :
  segment s1 {| md := md s2;
                inclination_deg := inclination_deg s2;
                azimuth_deg := azimuth_deg s2 + 360 * IZR k |}
  = segment s1 s2.
Proof.
  unfold segment, dogleg. simpl.
  rewrite radians_turns.
  replace (radians (azimuth_deg s2) + 2 * IZR k * PI
           - radians (azimuth_deg s1))
    with (radians (azimuth_deg s2) - radians (azimuth_deg s1)
          + 2 * IZR k * PI) by ring.
  now rewrite !cos_period_Z, sin_period_Z.
Qed.

Lemma shortest_delta_turns a1 a2 :
  exists k : Z, a1 + shortest_delta a1 a2 = a2 + 360 * IZR k.
Proof.
  unfold shortest_delta, Rmod.
  exists (- Int_part ((a2 - a1 + 180) / 360))%Z.
  rewrite opp_IZR. ring.
Qed.

(** Steps 2 to 4 at the far end of an interval are the segment between
    its two stations. *)
Lemma interpolate_in_far_end tp i si sj p :
  nth_error (stations tp) i = Some si ->
  nth_error (stations tp) (S i) = Some sj ->
  nth_error (points tp) i = Some p ->
  md si < md sj ->
  interpolate_in tp i (md sj)
  = match segment si sj with
    | Some d => inr (advance p (md sj) d)
    | None => inl InternalFault
    end.
Proof.
  intros Hsi Hsj Hp Hlt. unfold interpolate_in. rewrite Hsi, Hsj, Hp.
  replace ((md sj - md si) / (md sj - md si)) with 1 by (field; lra).
  rewrite !Rmult_1_l.
  destruct (shortest_delta_turns (azimuth_deg si) (azimuth_deg sj))
    as (k & ->).
  replace (inclination_deg si + (inclination_deg sj - inclination_deg si))
    with (inclination_deg sj) by ring.
  now rewrite segment_azimuth_turns.
Qed.

Lemma path_from_step rest : forall p s ps i si sj,
  path_from p s rest = Some ps ->
  nth_error (s :: rest) i = Some si ->
  nth_error (s :: rest) (S i) = Some sj ->
  exists pi d,
    nth_error ps i = Some pi /\ segment si sj = Some d
    /\ nth_error ps (S i) = Some (advance pi (md sj) d).
Proof.
  induction rest as [| s' rest' IH]; intros p s ps i si sj Hps Hsi Hsj.
  - destruct i; discriminate.
  - simpl in Hps.
    destruct (segment s s') as [d |] eqn:Hd; [| discriminate].
    destruct (path_from _ s' rest') as [ps' |] eqn:Hps'; [| discriminate].
    injection Hps as <-.
    destruct i as [| i].
    + injection Hsi as <-. injection Hsj as <-.
      exists p, d. repeat split; try assumption.
      destruct rest' as [| s'' rest'']; simpl in Hps'.
      * now injection Hps' as <-.
      * destruct (segment s' s''); [| discriminate].
        destruct (path_from _ s'' rest''); [| discriminate].
        now injection Hps' as <-.
    + apply (IH _ _ _ i si sj Hps'); assumption.
Qed.

Lemma solve_ok raw azi_adj tp :
  solve raw azi_adj = inr tp ->
  strictly_increasing (stations tp) = true
  /\ (2 <= List.length (stations tp))%nat
  /\ pathPoints (stations tp) = Some (points tp).
Proof.
  unfold solve.
  destruct (survey_station_table raw) as [e | table] eqn:Htab; [discriminate |].
  destruct (pathPoints (map (rotate azi_adj) table)) as [ps |] eqn:Hps;
    [| discriminate].
  intros [= <-]. simpl.
  destruct (survey_station_table_ok raw table Htab) as (-> & Hlen & Hinc & _).
  repeat split.
  - now rewrite !strictly_increasing_map.
  - now rewrite !length_map, sort_by_md_length.
  - exact Hps.
Qed.

Lemma recomputed_at_station tp i si sj :
  strictly_increasing (stations tp) = true ->
  pathPoints (stations tp) = Some (points tp) ->
  nth_error (stations tp) i = Some si ->
  nth_error (stations tp) (S i) = Some sj ->
  exists p,
    nth_error (points tp) (S i) = Some p
    /\ interpolate_in tp i (md sj) = inr p.
Proof.
  intros Hinc Hps Hsi Hsj.
  destruct tp as [table ps]. simpl in *.
  destruct table as [| s0 rest]; [destruct i; discriminate |].
  destruct (path_from_step rest _ s0 ps i si sj Hps Hsi Hsj)
    as (p & d & Hp & Hd & Hnext).
  exists (advance p (md sj) d). split; [exact Hnext |].
  assert (Hlt : md si < md sj).
  { clear - Hinc Hsi Hsj. revert s0 rest Hinc Hsi Hsj.
    induction i as [| i IH]; intros s0 rest Hinc Hsi Hsj.
    - injection Hsi as <-.
      apply (strictly_increasing_head_lt _ _ Hinc).
      now apply nth_error_In in Hsj.
    - destruct rest as [| s1 rest']; [discriminate |].
      apply (IH s1 rest'); try assumption.
      now apply strictly_increasing_tail in Hinc. }
  rewrite (interpolate_in_far_end {| stations := s0 :: rest; points := ps |}
             i si sj p Hsi Hsj Hp Hlt).
  now rewrite Hd.
Qed.

(** C8. On a solved trajectory, interpolating at the MD of any survey
    station returns the PathPoint stored for that station, exactly; and
    recomputing the point from the preceding station by steps 2 to 4 of
    the interpolator gives that same stored point. *)
Theorem interpolate_station_idempotent raw azi_adj tp i s :
  solve raw azi_adj = inr tp ->
  nth_error (stations tp) i = Some s ->
  exists p,
    nth_error (points tp) i = Some p /\ pp_md p = md s
    /\ interpolate tp (md s) = inr p
    /\ forall j, i = S j -> interpolate_in tp j (md s) = inr p.
Proof.
  intros Hsolve Hs.
  destruct (solve_ok raw azi_adj tp Hsolve) as (Hinc & Hlen & Hps).
  destruct (interpolate_at_station (stations tp) (points tp) i s
              Hinc Hlen (pathPoints_mds _ _ Hps) Hs) as (p & Hp & Hmd & Hi).
  exists p. split; [exact Hp |]. split; [exact Hmd |].
  split; [destruct tp; exact Hi |].
  intros j ->.
  destruct (nth_error (stations tp) j) as [sj |] eqn:Hsj.
  - destruct (recomputed_at_station tp j sj s Hinc Hps Hsj Hs)
      as (p' & Hp' & Hre).
    congruence.
  - apply nth_error_None in Hsj.
    assert (Hsome : nth_error (stations tp) (S j) <> None) by congruence.
    apply nth_error_Some in Hsome. lia.
Qed.

End PathFacts.

(** ** The well heading east *)

Section EastWellFacts.
Import Solver.
Local Open Scope R_scope.

Lemma Rmod_small x m : 0 <= x < m -> Rmod x m = x.
Proof.
  intros [Hlo Hhi]. unfold Rmod.
  assert (Hz : 0%Z = Int_part (x / m)).
  { apply Int_part_spec. simpl. split.
    - assert (x / m < 1); [| lra].
      apply (Rmult_lt_reg_r m); [lra |].
      unfold Rdiv. rewrite Rmult_assoc, Rinv_l by lra. lra.
    - apply Rmult_le_pos; [lra |].
      left. apply Rinv_0_lt_compat. lra. }
  rewrite <- Hz. simpl. ring.
Qed.

Lemma radians_90 : radians 90 = PI / 2.
Proof. unfold radians. field. Qed.

Lemma solve_east_well : solve EastWell.raw 0 = inr EastWell.trajectory.
Proof.
  assert (Htab : survey_station_table EastWell.raw
                 = inr (map normalize [EastWell.s0; EastWell.s1])).
  { unfold survey_station_table, EastWell.raw. simpl sort_by_md.
    destruct (Rle_dec 100 0) as [Hle | _]; [lra |].
    simpl.
    rewrite (proj2 (Rltb_false 0 0)), (proj2 (Rltb_false 100 0)),
      (proj2 (Rltb_false 90 0)), (proj2 (Rltb_false 180 90)),
      (proj2 (Rltb_true 0 100)) by lra.
    reflexivity. }
  unfold solve. rewrite Htab. clear Htab.
  assert (Hst : map (rotate 0) (map normalize [EastWell.s0; EastWell.s1])
                = [EastWell.s0; EastWell.s1]).
  { simpl. unfold rotate, normalize, EastWell.s0, EastWell.s1. simpl.
    rewrite (Rmod_small 90 360) by lra.
    rewrite (Rmod_small (90 + 0) 360) by lra.
    replace (90 + 0) with 90 by ring. reflexivity. }
  rewrite Hst. clear Hst.
  unfold pathPoints, path_from.
  rewrite (segment_same_direction EastWell.s0 EastWell.s1)
    by (simpl; (lra || reflexivity)).
  unfold EastWell.trajectory, advance, straight_projection. simpl.
  rewrite radians_90, sin_PI2, cos_PI2.
  do 3 f_equal. f_equal. f_equal; ring.
Qed.

End EastWellFacts.

(** ** Order and duplicates in the station table *)

Section TableOrder.
Import Solver.
Local Open Scope R_scope.

Local Abbreviation le_md := (fun a b : SurveyStation => md a <= md b).












End TableOrder.

(** ** The required columns *)

Section RequiredColumns.




End RequiredColumns.

(** ** When the table is refused *)

Section RefusedTable.
Context {F : Type} `{Number F}.
Variable float_of_str : string -> option F.
Variables DataFrame Well Transformer : Type.
Variable read_csv : string -> exn + DataFrame.
Variable columns : DataFrame -> list string.
Variable wp_load : DataFrame -> number F -> number F -> number F -> exn + Well.
Variable get_point : Well -> F -> exn + Wp.point F.
Variable from_crs : option Z -> exn + Transformer.
Variable transform : Transformer -> pyval F -> pyval F -> exn + (F * F).

Local Abbreviation run :=
  (main float_of_str DataFrame Well Transformer read_csv columns wp_load
     get_point from_crs transform).



End RefusedTable.

(** ** [main] on the trajectory library *)

Section LibraryFacts.
Import Solver.
Local Open Scope R_scope.

Variable float_of_str : string -> option R.
Variable read_csv : string -> exn + WellProfile.DataFrame.
Variable Transformer : Type.
Variable from_crs : option Z -> exn + Transformer.
Variable transform : Transformer -> pyval R -> pyval R -> exn + (R * R).

Local Abbreviation run :=
  (main float_of_str WellProfile.DataFrame WellProfile.Well Transformer
     read_csv WellProfile.columns WellProfile.load WellProfile.get_point
     from_crs transform).
Local Abbreviation point_at :=
  (interpolate_point WellProfile.Well WellProfile.get_point).

(** C1 (amended). For a trajectory loaded with the start point
    (east x0, north y0), the record of a depth at which the path has the
    cumulative displacement (north, east, tvd) is
    x = x0 + east, y = y0 + north, z = z0 - tvd. *)
Theorem record_coordinates (logger : Logger) (x0 y0 z0 azi_adj : number R)
    (df : WellProfile.DataFrame) (w : WellProfile.Well) (q : R)
    (p : PathPoint) :
  WellProfile.load df x0 y0 azi_adj = inr w ->
  interpolate (WellProfile.path w) q = inr p ->
  outcome (point_at logger z0 w q)
  = inr [("md", pyfloat q);
         ("x", pyfloat (WellProfile.to_R x0 + east p));
         ("y", pyfloat (WellProfile.to_R y0 + north p));
         ("z", pyfloat (WellProfile.to_R z0 - tvd p))].
Proof.
  intros Hload Hp. unfold WellProfile.load in Hload.
  destruct (solve _ _) as [e | tp]; [discriminate |].
  injection Hload as <-.
  rewrite (interpolate_point_ok _ _ _ _ _ _
             {| Wp.north := WellProfile.to_R y0 + north p;
                Wp.east := WellProfile.to_R x0 + east p;
                Wp.tvd := tvd p |}).
  - destruct z0; reflexivity.
  - unfold WellProfile.get_point. simpl in *. now rewrite Hp.
Qed.


End LibraryFacts.

(** ** Runs of the program *)

Section Runs.
Local Open Scope float_scope.

Lemma demo_get_point_errors w md e :
  Demo.get_point w md = inl e -> e = ValueError.
Proof.
  unfold Demo.get_point.
  destruct (PrimFloat.leb 0 md && PrimFloat.leb md 1000)%bool;
    [discriminate | now intros [= <-]].
Qed.

Lemma demo_from_crs_errors wkid e :
  Demo.from_crs wkid = inl e -> e = CRSError.
Proof.
  unfold Demo.from_crs.
  destruct wkid as [[| p | p] |]; try now intros [= <-].
  repeat (destruct p as [p | p |]; try now intros [= <-]).
Qed.

Lemma demo_transform_errors t x y e :
  Demo.transform t x y = inl e -> e = TypeError \/ e = CRSError.
Proof.
  unfold Demo.transform.
  destruct x as [| | [|] |]; try (intros [= <-]; now left).
  destruct y as [| | [|] |]; try (intros [= <-]; now left).
Qed.

Lemma out_of_range_isolated_witness :
  Demo.get_point (Int 0, Int 0) 50000 = inl ValueError
  /\ outcome (for_md_in Demo.Well Demo.get_point INFO (Int 0) (Int 0, Int 0)
                [500; 50000; 250] [])
     = inr [ [("md", pyfloat 500); ("x", pyfloat 0); ("y", pyfloat 0);
              ("z", pyfloat (-500))];
             [("md", PNum (Float 50000)); ("x", PNone); ("y", PNone);
              ("z", PNone)];
             [("md", pyfloat 250); ("x", pyfloat 0); ("y", pyfloat 0);
              ("z", pyfloat (-250))] ].
Proof.
  split; [reflexivity |].
  exact (proj2 (out_of_range_isolated Demo.Well Demo.get_point INFO (Int 0)
                  (Int 0, Int 0) [500] [250] 50000 eq_refl)).
Defined.

Lemma add_latlon_fields_witness :
  getitem (placeholder 50000) "x" = Some PNone
  /\ getitem (placeholder 50000) "y" = Some PNone
  /\ exists point',
       add_latlon Demo.Transformer Demo.transform (placeholder 50000) 32631%Z
       = inr point'
       /\ getitem point' "lat" = Some PNone
       /\ getitem point' "lon" = Some PNone
       /\ forall k, k <> "lat" -> k <> "lon" ->
            getitem point' k = getitem (placeholder 50000) k.
Proof.
  split; [reflexivity |]. split; [reflexivity |].
  exact (add_latlon_fields Demo.Transformer Demo.transform
           (placeholder 50000) 32631%Z PNone PNone eq_refl eq_refl).
Defined.

(** C3, as stated, fails: in this run the second depth is out of range,
    the transform refuses its empty x and y, and the record printed for
    it has the keys lat and lon all the same. *)
Lemma failed_projection_keeps_latlon_keys :
  outcome (Demo.main (Demo.args "500,50000" (Some 32631%Z) (Some 3) (Some 4)))
  = inr [ [("md", pyfloat 500); ("x", pyfloat 3); ("y", pyfloat 4);
           ("z", pyfloat (-500));
           ("lat", pyfloat (4 / 100000)); ("lon", pyfloat (3 / 100000))];
          [("md", pyfloat 50000); ("x", PNone); ("y", PNone); ("z", PNone);
           ("lat", PNone); ("lon", PNone)] ]
  /\ Demo.transform 32631%Z PNone PNone = inl TypeError
  /\ has_key (F := float)
       [("md", pyfloat 50000); ("x", PNone); ("y", PNone); ("z", PNone);
        ("lat", PNone); ("lon", PNone)] "lat" = true
  /\ has_key (F := float)
       [("md", pyfloat 50000); ("x", PNone); ("y", PNone); ("z", PNone);
        ("lat", PNone); ("lon", PNone)] "lon" = true.
Proof. vm_compute. repeat split. Qed.




Lemma unparsed_md_unbound_witness :
  parse_mds Demo.float_of_str "500,abc" = None
  /\ In {| levelname := ERROR;
           msg := "Could not parse `md` parameter. Expecting comma-delimited list of floats.";
           fields := [] |}
        (log_of (Demo.main (Demo.args "500,abc" None None None)))
  /\ outcome (Demo.main (Demo.args "500,abc" None None None))
     = inl (UnboundLocalError "mds").
Proof.
  split; [reflexivity |].
  exact (unparsed_md_unbound Demo.float_of_str Demo.DataFrame Demo.Well
           Demo.Transformer Demo.read_csv Demo.columns Demo.wp_load
           Demo.get_point Demo.from_crs Demo.transform
           (Demo.args "500,abc" None None None) eq_refl).
Defined.

Lemma one_record_per_md_witness :
  parse_mds Demo.float_of_str "500,50000" = Some [500; 50000]
  /\ exists points,
       outcome (Demo.main (Demo.args "500,50000" (Some 32631%Z)
                             (Some 3) (Some 4))) = inr points
       /\ map (fun pt => getitem pt "md") points
          = [Some (pyfloat 500); Some (pyfloat 50000)].
Proof.
  split; [reflexivity |].
  exact (proj2 (one_record_per_md Demo.float_of_str Demo.DataFrame Demo.Well
                  Demo.Transformer Demo.read_csv Demo.columns Demo.wp_load
                  Demo.get_point Demo.from_crs Demo.transform
                  (Demo.args "500,50000" (Some 32631%Z) (Some 3) (Some 4))
                  [500; 50000] eq_refl)
           ["md"; "inc"; "azi"] (Float 3, Float 4) eq_refl eq_refl eq_refl
           (fun md e _ => demo_get_point_errors _ md e)
           (demo_from_crs_errors _)
           demo_transform_errors).
Defined.

End Runs.

(** ** Runs on the well heading east *)

Section EastWellRuns.
Import Solver.
Local Open Scope R_scope.

Lemma load_east_well :
  WellProfile.load EastWell.df (Float 10) (Float 20) (Int 0)
  = inr EastWell.well.
Proof.
  unfold WellProfile.load. simpl WellProfile.records. simpl WellProfile.to_R.
  now rewrite solve_east_well.
Qed.

Lemma east_well_increasing :
  strictly_increasing [EastWell.s0; EastWell.s1] = true.
Proof.
  simpl. rewrite (proj2 (Rltb_true 0 100)) by lra. reflexivity.
Qed.

Lemma interpolate_east_well_end :
  interpolate EastWell.trajectory 100
  = inr {| pp_md := 100; north := 0; east := 100; tvd := 0 |}.
Proof.
  destruct (interpolate_at_station [EastWell.s0; EastWell.s1]
              (points EastWell.trajectory) 1 EastWell.s1
              east_well_increasing (le_n 2) eq_refl eq_refl)
    as (p & [= <-] & _ & Hp).
  exact Hp.
Qed.

Lemma record_coordinates_witness :
  WellProfile.load EastWell.df (Float 10) (Float 20) (Int 0)
  = inr EastWell.well
  /\ interpolate (WellProfile.path EastWell.well) 100
     = inr {| pp_md := 100; north := 0; east := 100; tvd := 0 |}
  /\ outcome (interpolate_point WellProfile.Well WellProfile.get_point INFO
                (Int 0) EastWell.well 100)
     = inr [("md", pyfloat 100); ("x", pyfloat (10 + 100));
            ("y", pyfloat (20 + 0)); ("z", pyfloat (0 - 0))].
Proof.
  split; [exact load_east_well |]. split; [exact interpolate_east_well_end |].
  exact (record_coordinates INFO (Float 10) (Float 20) (Int 0) (Int 0)
           EastWell.df EastWell.well 100 _
           load_east_well interpolate_east_well_end).
Defined.

(** C1, as stated, fails: on the well heading east from the start point
    (x0, y0) = (10, 20), the path at depth 100 has the cumulative
    displacement north 0, east 100, and the record has x = 110 and
    y = 20, not x = x0 + north = 10 and y = y0 + east = 120. *)
Lemma x_follows_east_not_north :
  WellProfile.load EastWell.df (Float 10) (Float 20) (Int 0)
  = inr EastWell.well
  /\ interpolate (WellProfile.path EastWell.well) 100
     = inr {| pp_md := 100; north := 0; east := 100; tvd := 0 |}
  /\ outcome (interpolate_point WellProfile.Well WellProfile.get_point INFO
                (Int 0) EastWell.well 100)
     = inr [("md", pyfloat 100); ("x", pyfloat (10 + 100));
            ("y", pyfloat (20 + 0)); ("z", pyfloat (0 - 0))]
  /\ 10 + 100 <> 10 + 0
  /\ 20 + 0 <> 20 + 100.
Proof.
  split; [exact load_east_well |]. split; [exact interpolate_east_well_end |].
  split; [| split; lra].
  rewrite (interpolate_point_ok _ _ _ _ _ _
             {| Wp.north := 20 + 0; Wp.east := 10 + 100; Wp.tvd := 0 |}).
  - reflexivity.
  - unfold WellProfile.get_point.
    change (WellProfile.path EastWell.well) with EastWell.trajectory.
    now rewrite interpolate_east_well_end.
Qed.

Lemma interpolate_out_of_range_witness :
  (stations (WellProfile.path EastWell.well) = [EastWell.s0; EastWell.s1]
   /\ (150 < 0 \/ 100 < 150))
  /\ interpolate (WellProfile.path EastWell.well) 150
     = inl (OutOfRangeError 0 100)
  /\ WellProfile.get_point EastWell.well 150 = inl ValueError.
Proof.
  assert (Hq : 150 < 0 \/ 100 < 150) by (right; lra).
  split; [split; [reflexivity | exact Hq] |].
  exact (interpolate_out_of_range EastWell.well EastWell.s0 [EastWell.s1] 150
           eq_refl Hq).
Defined.




Lemma segment_straight_witness :
  md EastWell.s0 < md EastWell.s1
  /\ segment EastWell.s0 EastWell.s1
     = Some {| delta_north := (100 - 0) * sin (radians 90) * cos (radians 90);
               delta_east := (100 - 0) * sin (radians 90) * sin (radians 90);
               delta_tvd := (100 - 0) * cos (radians 90) |}.
Proof.
  assert (Hmd : md EastWell.s0 < md EastWell.s1) by (simpl; lra).
  split; [exact Hmd |].
  exact (proj2 (proj2 (segment_straight EastWell.s0 EastWell.s1 Hmd
                         eq_refl eq_refl))).
Defined.

Lemma interpolate_station_idempotent_witness :
  solve EastWell.raw 0 = inr EastWell.trajectory
  /\ exists p,
       nth_error (points EastWell.trajectory) 1 = Some p
       /\ pp_md p = md EastWell.s1
       /\ interpolate EastWell.trajectory (md EastWell.s1) = inr p
       /\ forall j, 1%nat = S j ->
            interpolate_in EastWell.trajectory j (md EastWell.s1) = inr p.
Proof.
  split; [exact solve_east_well |].
  exact (interpolate_station_idempotent EastWell.raw 0 EastWell.trajectory 1
           EastWell.s1 solve_east_well eq_refl).
Defined.

End EastWellRuns.

(** ** Sample runs on floats *)

Section SampleRuns.
Local Open Scope float_scope.

Example split_commas : split "," "500,,abc" = ["500"; ""; "abc"].
Proof. reflexivity. Qed.

Example split_empty : split "," "" = [""].
Proof. reflexivity. Qed.

Example run_without_projection :
  Demo.main (Demo.args "0,1000" None (Some 3) (Some 4))
  = ([], inr [ [("md", pyfloat 0); ("x", pyfloat 3); ("y", pyfloat 4);
                ("z", pyfloat 0)];
               [("md", pyfloat 1000); ("x", pyfloat 3); ("y", pyfloat 4);
                ("z", pyfloat (-1000))] ]).
Proof. vm_compute. reflexivity. Qed.

Example run_wkid_without_origin :
  Demo.main (Demo.args "250" (Some 32631%Z) None (Some 4))
  = ([{| levelname := WARNING;
         msg := "WKID was supplied without x0/y0, so WGS84 lat/lon cannot be determined";
         fields := [] |}],
     inr [ [("md", pyfloat 250); ("x", pyfloat 0); ("y", pyfloat 4);
            ("z", pyfloat (-250))] ]).
Proof. vm_compute. reflexivity. Qed.

Example run_unknown_wkid :
  Demo.main (Demo.args "250" (Some 4326%Z) (Some 3) (Some 4))
  = ([{| levelname := ERROR;
         msg := "Could not create a transformation from WKID {wkid} to WGS84";
         fields := [AVal (PNum (Int 4326))] |}],
     inr [ [("md", pyfloat 250); ("x", pyfloat 3); ("y", pyfloat 4);
            ("z", pyfloat (-250))] ]).
Proof. vm_compute. reflexivity. Qed.

Example run_missing_columns :
  Demo.main {| Args.md := "250"; Args.csv := "depths.csv"; Args.wkid := None;
               Args.x0 := None; Args.y0 := None; Args.z0 := None;
               Args.azi_adj := None; Args.debug := false |}
  = ([{| levelname := CRITICAL;
         msg := "Input well data is missing required columns: {missing_cols}";
         fields := [ACols ["azi"; "inc"]] |}],
     inl (Exception
            "Input well data is missing required columns: {missing_cols}"
            ["azi"; "inc"])).
Proof. vm_compute. reflexivity. Qed.

Example zero_origin_is_falsy :
  or_zero (Some 0) = Int 0 /\ or_zero (Some (-0)) = Int 0
  /\ or_zero (Some nan) = Float nan /\ or_zero (F := float) None = Int 0.
Proof. vm_compute. repeat split. Qed.

End SampleRuns.

(** * Further properties of the program *)

(** ** Parsing the md argument *)

Section ParseFacts.
Context {F : Type}.
Variable float_of_str : string -> option F.

Local Abbreviation parse := (parse_mds float_of_str).
Local Abbreviation to_floats := (floats float_of_str).

Lemma split_length sep s :
  List.length (split sep s) = S (occurrences sep s).
Proof.
  induction s as [| c rest IH]; simpl; [reflexivity |].
  destruct (Ascii.eqb c sep); simpl.
  - now rewrite IH.
  - destruct (split sep rest) as [| w ws]; [discriminate | exact IH].
Qed.

Lemma floats_pieces l : forall mds,
  to_floats l = Some mds <->
  Forall2 (fun piece f => float_of_str piece = Some f) l mds.
Proof.
  induction l as [| s rest IH]; intros mds; simpl.
  - split.
    + intros [= <-]. constructor.
    + intros Hf. inversion Hf. reflexivity.
  - split.
    + destruct (float_of_str s) as [f |] eqn:Hs; [| discriminate].
      destruct (to_floats rest) as [fs |] eqn:Hrest; [| discriminate].
      intros [= <-]. constructor; [exact Hs | now apply IH].
    + intros Hf. inversion Hf as [| s' f rest' fs Hs Hrest]; subst.
      rewrite Hs. apply IH in Hrest. now rewrite Hrest.
Qed.

(** The md argument parses exactly when every comma-separated piece is
    accepted by [float], piece by piece and in order; the list of depths
    then has one more element than the argument has commas. *)
Theorem parse_mds_pieces (s : string) (mds : list F) :
  parse s = Some mds ->
  Forall2 (fun piece f => float_of_str piece = Some f) (split "," s) mds
  /\ List.length mds = S (occurrences "," s).
Proof.
  unfold parse_mds. intros Hp. apply floats_pieces in Hp.
  split; [exact Hp |].
  rewrite <- (Forall2_length Hp). apply split_length.
Qed.

Lemma split_comma_first s : split "," (String "," s) = "" :: split "," s.
Proof. reflexivity. Qed.

Lemma split_trailing_comma s :
  exists w ws, split "," (s ++ ",") = (w :: ws) ++ [""].
Proof.
  induction s as [| c rest IH].
  - now exists "", [].
  - destruct IH as (w & ws & IH). simpl. rewrite IH.
    destruct (Ascii.eqb c ","); simpl.
    + now exists "", (w :: ws).
    + now exists (String c w), ws.
Qed.

Lemma floats_refuses l :
  In "" l -> float_of_str "" = None -> to_floats l = None.
Proof.
  intros Hin Hempty. induction l as [| s rest IH]; [contradiction |].
  simpl. destruct Hin as [-> | Hin].
  - now rewrite Hempty.
  - destruct (float_of_str s); [| reflexivity].
    now rewrite (IH Hin).
Qed.

(** Since [float] refuses the empty string, an empty md argument, a
    leading comma and a trailing comma all make the parse fail. *)
Theorem parse_mds_empty_piece (s : string) :
  float_of_str "" = None ->
  parse "" = None
  /\ parse (String "," s) = None
  /\ parse (s ++ ",") = None.
Proof.
  intros Hempty. unfold parse_mds. repeat split.
  - simpl. now rewrite Hempty.
  - apply floats_refuses; [now left | exact Hempty].
  - destruct (split_trailing_comma s) as (w & ws & ->).
    apply floats_refuses; [| exact Hempty].
    apply in_or_app. right. now left.
Qed.

End ParseFacts.

(** ** The column check *)

Section ColumnFacts.

Lemma existsb_eqb_In c cols :
  existsb (String.eqb c) cols = true <-> In c cols.
Proof.
  rewrite existsb_exists. split.
  - intros (x & Hx & Heq). apply String.eqb_eq in Heq. now subst.
  - intros Hin. exists c. split; [exact Hin | apply String.eqb_refl].
Qed.

(** The missing columns are the required columns md, azi, inc that the
    table lacks; the check passes exactly when the table has all three,
    in whatever order and among whatever other columns. *)
Theorem missing_columns_spec (cols : list string) :
  (forall c, In c (missing cols)
             <-> (c = "md" \/ c = "azi" \/ c = "inc") /\ ~ In c cols)
  /\ (missing cols = [] <-> In "md" cols /\ In "azi" cols /\ In "inc" cols).
Proof.
  assert (Hin : forall c, In c (missing cols)
             <-> (c = "md" \/ c = "azi" \/ c = "inc") /\ ~ In c cols).
  { intros c. unfold missing. rewrite filter_In, negb_true_iff.
    rewrite <- not_true_iff_false, existsb_eqb_In.
    unfold required_cols. simpl. intuition. }
  split; [exact Hin |].
  split.
  - intros Hnil.
    assert (Hall : forall c, (c = "md" \/ c = "azi" \/ c = "inc") -> In c cols).
    { intros c Hc.
      destruct (in_dec string_dec c cols) as [Hyes | Hno]; [exact Hyes |].
      exfalso. assert (Hm : In c (missing cols)) by now apply Hin.
      now rewrite Hnil in Hm. }
    repeat split; apply Hall; auto.
  - intros (Hmd & Hazi & Hinc).
    destruct (missing cols) as [| c cs] eqn:Hm; [reflexivity |].
    exfalso. assert (Hc : In c (c :: cs)) by now left.
    apply Hin in Hc. destruct Hc as ([-> | [-> | ->]] & Hno); contradiction.
Qed.

End ColumnFacts.

(** ** The batch of depths *)

Section BatchFacts.
Context {F : Type} `{Number F}.
Variable Well : Type.
Variable get_point : Well -> F -> exn + Wp.point F.
Variables (logger : Logger) (z0 : number F) (well : Well).

Local Abbreviation point_at := (interpolate_point Well get_point logger z0 well).
Local Abbreviation loop := (for_md_in Well get_point logger z0 well).

Lemma interpolate_point_raises md e :
  get_point well md = inl e -> is_ValueError e = false ->
  outcome (point_at md) = inl e.
Proof.
  intros Hp He. unfold interpolate_point.
  now rewrite outcome_emit_bind, Hp, He.
Qed.

(** Only [ValueError] is handled in the loop: any other exception of
    [get_point] ends the batch with that exception, whatever was
    interpolated before and whatever depths follow. *)
Theorem other_exception_aborts (pre post : list F) (md : F) (e : exn)
    (before : list (dict F)) :
  outcome (loop pre []) = inr before ->
  get_point well md = inl e -> is_ValueError e = false ->
  outcome (loop (pre ++ md :: post) []) = inl e.
Proof.
  intros Hpre Hp He.
  now rewrite for_md_in_app, Hpre, for_md_in_cons,
    (interpolate_point_raises md e Hp He).
Qed.

Lemma interpolate_point_record md pt :
  outcome (point_at md) = inr pt ->
  pt = match get_point well md with
       | inr p =>
           [("md", pyfloat md); ("x", pyfloat (Wp.east p));
            ("y", pyfloat (Wp.north p));
            ("z", pyfloat (num_sub z0 (Wp.tvd p)))]
       | inl _ => placeholder md
       end.
Proof.
  unfold interpolate_point. rewrite outcome_emit_bind.
  destruct (get_point well md) as [e | p].
  - destruct (is_ValueError e); [| discriminate].
    rewrite outcome_emit_bind. now intros [= <-].
  - now intros [= <-].
Qed.

Lemma for_md_in_records mds : forall pts,
  outcome (loop mds []) = inr pts ->
  pts = map (fun md =>
               match get_point well md with
               | inr p =>
                   [("md", pyfloat md); ("x", pyfloat (Wp.east p));
                    ("y", pyfloat (Wp.north p));
                    ("z", pyfloat (num_sub z0 (Wp.tvd p)))]
               | inl _ => placeholder md
               end) mds.
Proof.
  induction mds as [| md rest IH]; intros pts.
  - now intros [= <-].
  - rewrite for_md_in_cons.
    destruct (outcome (point_at md)) as [e | pt] eqn:Hpt; [discriminate |].
    destruct (outcome (loop rest [])) as [e | ps]; [discriminate |].
    intros [= <-]. simpl.
    now rewrite <- (interpolate_point_record md pt Hpt), <- (IH ps eq_refl).
Qed.

Lemma log_interpolate_point md :
  isEnabledFor logger DEBUG = false -> isEnabledFor logger ERROR = true ->
  log_of (point_at md)
  = if refused get_point well md then [refused_record md] else [].
Proof.
  intros Hd He. unfold interpolate_point, refused.
  rewrite log_emit_bind. unfold emit at 1. rewrite Hd. simpl.
  destruct (get_point well md) as [e | p]; [| reflexivity].
  destruct (is_ValueError e); [| reflexivity].
  rewrite log_emit_bind. unfold emit. now rewrite He.
Qed.

Lemma log_for_md_in mds : forall acc pts,
  isEnabledFor logger DEBUG = false -> isEnabledFor logger ERROR = true ->
  outcome (loop mds acc) = inr pts ->
  log_of (loop mds acc)
  = map refused_record (filter (refused get_point well) mds).
Proof.
  induction mds as [| md rest IH]; intros acc pts Hd He; [reflexivity |].
  simpl for_md_in.
  destruct (outcome (point_at md)) as [e | pt] eqn:Hpt.
  - now rewrite (outcome_bind_inl _ _ e Hpt).
  - rewrite (outcome_bind_inr _ _ pt Hpt). intros Hrest.
    rewrite (log_bind_inr _ _ pt Hpt), (IH _ _ Hd He Hrest),
      (log_interpolate_point md Hd He).
    simpl. now destruct (refused get_point well md).
Qed.

End BatchFacts.

(** ** What the projection does to the records *)

Section ProjectionRecords.
Context {F : Type} `{Number F}.
Variable Transformer : Type.
Variable from_crs : option Z -> exn + Transformer.
Variable transform : Transformer -> pyval F -> pyval F -> exn + (F * F).

Local Abbreviation add_ll := (add_latlon Transformer transform).
Local Abbreviation add_each := (add_latlon_each Transformer transform).
Local Abbreviation proj := (project Transformer from_crs transform).
Local Abbreviation kept :=
  (fun p p' : dict F =>
     forall k, k <> "lat" -> k <> "lon" -> getitem p' k = getitem p k).

Lemma add_latlon_result (p p' : dict F) t :
  add_ll p t = inr p' ->
  exists lon lat, p' = setitem (setitem p "lat" lat) "lon" lon.
Proof.
  unfold add_latlon.
  destruct (getitem p "x") as [x |]; [| discriminate].
  destruct (getitem p "y") as [y |]; [| discriminate].
  destruct (transform t x y) as [e | [lon lat]].
  - destruct (is_TypeError e); [| discriminate].
    intros [= <-]. now exists PNone, PNone.
  - intros [= <-]. now exists (pyfloat lon), (pyfloat lat).
Qed.

Lemma add_latlon_keys (p p' : dict F) t :
  keys p = ["md"; "x"; "y"; "z"] -> add_ll p t = inr p' ->
  keys p' = ["md"; "x"; "y"; "z"; "lat"; "lon"].
Proof.
  intros Hk Hadd.
  destruct (add_latlon_result p p' t Hadd) as (lon & lat & ->).
  destruct p as [| [k1 v1] [| [k2 v2] [| [k3 v3] [| [k4 v4] [| ? ?]]]]];
    try discriminate.
  injection Hk as -> -> -> ->. reflexivity.
Qed.

Lemma add_latlon_each_kept (ps : list (dict F)) t : forall ps' e,
  add_each ps t = (ps', e) -> Forall2 kept ps ps'.
Proof.
  induction ps as [| p rest IH]; intros ps' e; simpl.
  - intros [= <- _]. constructor.
  - destruct (add_ll p t) as [ex | p1] eqn:Hp.
    + intros [= <- _].
      clear. induction (p :: rest); constructor; auto.
    + destruct (add_each rest t) as [rest' e'] eqn:Hrest.
      intros [= <- _]. constructor; [| now apply (IH rest' e')].
      intros k Hlat Hlon.
      destruct (add_latlon_result p p1 t Hp) as (lon & lat & ->).
      now rewrite !getitem_setitem_other by congruence.
Qed.

Lemma add_latlon_each_keys (ps : list (dict F)) t : forall ps',
  Forall (fun p => keys p = ["md"; "x"; "y"; "z"]) ps ->
  add_each ps t = (ps', None) ->
  Forall (fun p => keys p = ["md"; "x"; "y"; "z"; "lat"; "lon"]) ps'.
Proof.
  induction ps as [| p rest IH]; intros ps' Hk; simpl.
  - intros [= <-]. constructor.
  - inversion Hk as [| ? ? Hp Hrest]; subst.
    destruct (add_ll p t) as [ex | p1] eqn:Hadd; [discriminate |].
    destruct (add_each rest t) as [rest' e'] eqn:Heach.
    intros [= <- ->]. constructor.
    + now apply (add_latlon_keys p p1 t).
    + now apply IH.
Qed.

Lemma add_latlon_each_stops (pre post : list (dict F)) p t pre' e :
  add_each pre t = (pre', None) -> add_ll p t = inl e ->
  add_each (pre ++ p :: post) t = (pre' ++ p :: post, Some e).
Proof.
  revert pre'. induction pre as [| q rest IH]; intros pre'; simpl.
  - intros [= <-] ->. reflexivity.
  - destruct (add_ll q t) as [ex | q1]; [discriminate |].
    destruct (add_each rest t) as [rest' e'] eqn:Hrest.
    intros [= <- ->] Hp. now rewrite (IH rest' eq_refl Hp).
Qed.

(** The projection visits the records in order and updates each one in
    place, so when a [CRSError] leaves [add_latlon] at some record the
    block still ends normally, with lat and lon set on the records
    before it and the record itself and all later ones left as they
    were. *)
Theorem projection_stops_midway (logger : Logger) (wkid : option Z)
    (x0 y0 : number F) (t : Transformer) (pre post pre' : list (dict F))
    (p : dict F) :
  truthy (F := F) (opt_int wkid) && truthy_num x0 && truthy_num y0 = true ->
  from_crs wkid = inr t ->
  add_each pre t = (pre', None) ->
  add_ll p t = inl CRSError ->
  outcome (proj logger wkid x0 y0 (pre ++ p :: post))
  = inr (pre' ++ p :: post).
Proof.
  intros Hg Ht Hpre Hp.
  rewrite (project_on _ _ _ _ _ _ _ _ Hg), Ht.
  now rewrite (add_latlon_each_stops pre post p t pre' CRSError Hpre Hp).
Qed.

(** A WKID given without a usable x0 or y0 costs one WARNING record and
    leaves the points alone; without a WKID the block is silent. *)
Theorem wkid_without_origin_warns (logger : Logger) (wkid : option Z)
    (x0 y0 : number F) (points : list (dict F)) :
  isEnabledFor logger WARNING = true ->
  truthy_num x0 && truthy_num y0 = false ->
  outcome (proj logger wkid x0 y0 points) = inr points
  /\ log_of (proj logger wkid x0 y0 points)
     = if truthy (F := F) (opt_int wkid) then
         [{| levelname := WARNING;
             msg := "WKID was supplied without x0/y0, so WGS84 lat/lon cannot be determined";
             fields := [] |}]
       else [].
Proof.
  intros Hw Hxy.
  assert (Hg : truthy (F := F) (opt_int wkid) && truthy_num x0
               && truthy_num y0 = false).
  { rewrite <- andb_assoc, Hxy. apply andb_false_r. }
  split; [now apply project_off |].
  unfold project. rewrite Hg.
  destruct (truthy (opt_int wkid)); [| reflexivity].
  rewrite log_emit_bind. unfold emit. now rewrite Hw.
Qed.

End ProjectionRecords.

(** ** Logs with and without DEBUG records *)

Section DebugFacts.
Context {F : Type}.

Lemma log_emit_off {B} (logger : Logger) l m (fs : list (fmtarg F))
    (k : unit -> M F B) :
  isEnabledFor logger l = false ->
  log_of (bind (emit logger l m fs) k) = log_of (k tt).
Proof.
  intros Hoff. rewrite log_emit_bind. unfold emit. now rewrite Hoff.
Qed.

Lemma log_ret_bind {A B} (a : A) (k : A -> M F B) :
  log_of (bind (ret a) k) = log_of (k a).
Proof. unfold ret. simpl. now destruct (k a). Qed.

Lemma log_lift_bind {A B} (a : A) (k : A -> M F B) :
  log_of (bind (lift (inr a)) k) = log_of (k a).
Proof. unfold lift. simpl. now destruct (k a). Qed.

Lemma same_but_debug_emit l m (fs fs' : list (fmtarg F)) :
  l = DEBUG \/ fs = fs' ->
  same_but_debug (emit (get_logger DEBUG) l m fs) (emit (get_logger INFO) l m fs').
Proof.
  intros Hl. split.
  - now rewrite !outcome_emit.
  - destruct Hl as [-> | ->]; [reflexivity |].
    destruct l; reflexivity.
Qed.

Lemma same_but_debug_bind {A B} (m m' : M F A) (k k' : A -> M F B) :
  same_but_debug m m' ->
  (forall a, same_but_debug (k a) (k' a)) ->
  same_but_debug (bind m k) (bind m' k').
Proof.
  intros [Ho Hl] Hk.
  destruct m as [l [e | a]], m' as [l' [e' | a']]; simpl in Ho, Hl;
    try discriminate.
  - injection Ho as <-. split; [reflexivity | exact Hl].
  - injection Ho as <-. destruct (Hk a) as [Hko Hkl].
    unfold same_but_debug, bind, outcome, log_of in *.
    destruct (k a) as [l1 r1], (k' a) as [l1' r1']. simpl in *.
    split; [exact Hko |].
    unfold without_debug in *. now rewrite filter_app, Hl, Hkl.
Qed.

Lemma same_but_debug_refl {A} (r : exn + A) :
  same_but_debug (F := F) ([], r) ([], r).
Proof. split; reflexivity. Qed.

End DebugFacts.

Section DebugRun.
Context {F : Type} `{Number F}.
Variable float_of_str : string -> option F.
Variables DataFrame Well Transformer : Type.
Variable read_csv : string -> exn + DataFrame.
Variable columns : DataFrame -> list string.
Variable wp_load : DataFrame -> number F -> number F -> number F -> exn + Well.
Variable get_point : Well -> F -> exn + Wp.point F.
Variable from_crs : option Z -> exn + Transformer.
Variable transform : Transformer -> pyval F -> pyval F -> exn + (F * F).

Local Abbreviation run :=
  (main float_of_str DataFrame Well Transformer read_csv columns wp_load
     get_point from_crs transform).

Local Ltac same_step :=
  first
    [ apply same_but_debug_refl
    | apply same_but_debug_emit; (now left) || (now right)
    | apply same_but_debug_bind; [| intros ?] ].

Lemma same_but_debug_point z0 well md :
  same_but_debug
    (interpolate_point Well get_point (get_logger DEBUG) z0 well md)
    (interpolate_point Well get_point (get_logger INFO) z0 well md).
Proof.
  unfold interpolate_point. same_step; [same_step |].
  destruct (get_point well md) as [e | p]; [| same_step].
  destruct (is_ValueError e); [| same_step].
  repeat same_step.
Qed.

Lemma same_but_debug_loop z0 well mds : forall acc,
  same_but_debug
    (for_md_in Well get_point (get_logger DEBUG) z0 well mds acc)
    (for_md_in Well get_point (get_logger INFO) z0 well mds acc).
Proof.
  induction mds as [| md rest IH]; intros acc; simpl.
  - same_step.
  - same_step; [apply same_but_debug_point | apply IH].
Qed.

Lemma same_but_debug_project wkid x0 y0 points :
  same_but_debug
    (project Transformer from_crs transform (get_logger DEBUG) wkid x0 y0 points)
    (project Transformer from_crs transform (get_logger INFO) wkid x0 y0 points).
Proof.
  unfold project.
  destruct (truthy (opt_int wkid) && truthy_num x0 && truthy_num y0).
  - same_step; [same_step |].
    destruct (from_crs wkid) as [e | t].
    + destruct (is_CRSError e); repeat same_step.
    + destruct (add_latlon_each Transformer transform points t)
        as [points' [e |]]; [| same_step].
      destruct (is_CRSError e); repeat same_step.
  - destruct (truthy (opt_int wkid)); repeat same_step.
Qed.

Lemma same_but_debug_points points :
  same_but_debug (for_point_in (F := F) (get_logger DEBUG) points)
    (for_point_in (get_logger INFO) points).
Proof.
  induction points as [| pt rest IH]; cbn [for_point_in].
  - same_step.
  - destruct (getitem pt "md"); [| same_step].
    same_step; [same_step | exact IH].
Qed.

(** The --debug flag only adds DEBUG records: with and without it the
    run ends the same way, prints the same points, and writes the same
    records at the other levels, in the same order. *)
Theorem debug_only_adds_debug_records md csv wkid x0 y0 z0 azi_adj :
  same_but_debug
    (run (Args.mkNamespace md csv wkid x0 y0 z0 azi_adj true))
    (run (Args.mkNamespace md csv wkid x0 y0 z0 azi_adj false)).
Proof.
  unfold main. cbn [Args.md Args.csv Args.wkid Args.x0 Args.y0 Args.z0
                    Args.azi_adj Args.debug].
  do 9 (same_step; [same_step |]).
  apply same_but_debug_bind.
  { destruct (parse_mds float_of_str md); repeat same_step. }
  intros mds.
  same_step; [same_step |].
  apply same_but_debug_bind; [same_step | intros well_df].
  same_step; [same_step |].
  destruct (missing (columns well_df)); [| repeat same_step].
  same_step; [same_step |].
  apply same_but_debug_bind; [same_step | intros well].
  apply same_but_debug_bind.
  { destruct mds; [apply same_but_debug_loop | same_step]. }
  intros points.
  apply same_but_debug_bind; [apply same_but_debug_project | intros points'].
  same_step; [same_step |].
  same_step; [apply same_but_debug_points | same_step].
Qed.

End DebugRun.

(** ** What [main] prints and logs *)

Section PrintedFacts.
Context {F : Type} `{Number F}.
Variable float_of_str : string -> option F.
Variables DataFrame Well Transformer : Type.
Variable read_csv : string -> exn + DataFrame.
Variable columns : DataFrame -> list string.
Variable wp_load : DataFrame -> number F -> number F -> number F -> exn + Well.
Variable get_point : Well -> F -> exn + Wp.point F.
Variable from_crs : option Z -> exn + Transformer.
Variable transform : Transformer -> pyval F -> pyval F -> exn + (F * F).

Local Abbreviation run :=
  (main float_of_str DataFrame Well Transformer read_csv columns wp_load
     get_point from_crs transform).
Local Abbreviation parse := (parse_mds float_of_str).
Local Abbreviation loop := (for_md_in Well get_point).
Local Abbreviation proj := (project Transformer from_crs transform).
Local Abbreviation add_each := (add_latlon_each Transformer transform).
Local Abbreviation guard args :=
  (truthy (F := F) (opt_int (Args.wkid args))
   && truthy_num (or_zero (Args.x0 args))
   && truthy_num (or_zero (Args.y0 args))).

(** The stages a run that prints has gone through. *)
Lemma main_prints (args : Args.Namespace F) points :
  outcome (run args) = inr points ->
  exists well_df well mds,
    read_csv (Args.csv args) = inr well_df
    /\ missing (columns well_df) = []
    /\ wp_load well_df (or_zero (Args.x0 args)) (or_zero (Args.y0 args))
         (or_zero (Args.azi_adj args)) = inr well
    /\ parse (Args.md args) = Some mds
    /\ outcome (proj (logger_of args) (Args.wkid args)
                  (or_zero (Args.x0 args)) (or_zero (Args.y0 args))
                  (map (computed_record get_point (or_zero (Args.z0 args)) well)
                     mds))
       = inr points.
Proof.
  rewrite main_outcome.
  destruct (read_csv (Args.csv args)) as [e | well_df] eqn:Hread;
    [discriminate |].
  destruct (missing (columns well_df)) eqn:Hmiss; [| discriminate].
  destruct (wp_load well_df _ _ _) as [e | well] eqn:Hload; [discriminate |].
  destruct (parse (Args.md args)) as [mds |] eqn:Hparse; [| discriminate].
  destruct (outcome (loop _ _ well mds [])) as [e | pts] eqn:Hloop;
    [discriminate |].
  destruct (outcome (proj _ _ _ _ pts)) as [e | pts'] eqn:Hproj;
    [discriminate |].
  destruct (outcome (for_point_in _ pts')); [discriminate |].
  intros [= <-]. exists well_df, well, mds.
  repeat split; try assumption; try reflexivity.
  rewrite <- Hproj. f_equal. f_equal. symmetry.
  exact (for_md_in_records _ _ _ _ _ _ _ Hloop).
Qed.

Lemma project_kept (logger : Logger) wkid (x0 y0 : number F) points points' :
  outcome (proj logger wkid x0 y0 points) = inr points' ->
  Forall2 (fun p p' : dict F =>
             forall k, k <> "lat" -> k <> "lon" -> getitem p' k = getitem p k)
    points points'.
Proof.
  assert (Hsame : forall ps : list (dict F),
             Forall2 (fun p p' : dict F =>
                        forall k, k <> "lat" -> k <> "lon" ->
                                  getitem p' k = getitem p k) ps ps).
  { induction ps; constructor; auto. }
  destruct (truthy (F := F) (opt_int wkid) && truthy_num x0 && truthy_num y0)
    eqn:Hg.
  - rewrite (project_on _ _ _ _ _ _ _ _ Hg).
    destruct (from_crs wkid) as [e | t].
    + destruct (is_CRSError e); [| discriminate]. intros [= <-]. apply Hsame.
    + destruct (add_each points t) as [ps [e |]] eqn:Heach.
      * destruct (is_CRSError e); [| discriminate]. intros [= <-].
        apply (add_latlon_each_kept _ _ _ _ _ _ Heach).
      * intros [= <-]. apply (add_latlon_each_kept _ _ _ _ _ _ Heach).
  - rewrite (project_off _ _ _ _ _ _ _ _ Hg). intros [= <-]. apply Hsame.
Qed.

(** Whatever [main] prints, the record at each position holds, under
    md, x, y and z, what the loop computed for the depth at that
    position: the depth itself, then east, north and z0 - tvd of the
    point [get_point] returned, or three nulls when it raised
    [ValueError].  The projection never changes these four values. *)
Theorem printed_records (args : Args.Namespace F) (points : list (dict F)) :
  outcome (run args) = inr points ->
  exists well_df well mds,
    read_csv (Args.csv args) = inr well_df
    /\ wp_load well_df (or_zero (Args.x0 args)) (or_zero (Args.y0 args))
         (or_zero (Args.azi_adj args)) = inr well
    /\ parse (Args.md args) = Some mds
    /\ Forall2 (fun md pt =>
                  forall k, k <> "lat" -> k <> "lon" ->
                    getitem pt k
                    = getitem (computed_record get_point
                                 (or_zero (Args.z0 args)) well md) k)
         mds points.
Proof.
  intros Hrun.
  destruct (main_prints args points Hrun)
    as (well_df & well & mds & Hread & _ & Hload & Hparse & Hproj).
  exists well_df, well, mds. repeat split; try assumption.
  apply project_kept in Hproj. clear Hrun Hparse. revert points Hproj.
  induction mds as [| md rest IH]; intros points Hk; simpl in Hk;
    inversion Hk; subst.
  - constructor.
  - constructor; [assumption | now apply IH].
Qed.

Lemma add_latlon_completes (p : dict F) t :
  keys p = ["md"; "x"; "y"; "z"] ->
  (forall x y e, transform t x y = inl e -> is_TypeError e = true) ->
  exists p', add_latlon Transformer transform p t = inr p'.
Proof.
  intros Hk Htr.
  destruct p as [| [k1 v1] [| [k2 v2] [| [k3 v3] [| [k4 v4] [| ? ?]]]]];
    try discriminate.
  injection Hk as -> -> -> ->. unfold add_latlon. simpl.
  destruct (transform t v2 v3) as [e | [lon lat]] eqn:He.
  - rewrite (Htr _ _ _ He). eexists. reflexivity.
  - eexists. reflexivity.
Qed.

Lemma add_latlon_each_completes (ps : list (dict F)) t :
  Forall (fun p => keys p = ["md"; "x"; "y"; "z"]) ps ->
  (forall x y e, transform t x y = inl e -> is_TypeError e = true) ->
  exists ps', add_each ps t = (ps', None).
Proof.
  intros Hk Htr. induction Hk as [| p rest Hp _ IH]; simpl.
  - now exists [].
  - destruct (add_latlon_completes p t Hp Htr) as (p' & ->).
    destruct IH as (rest' & ->). now eexists.
Qed.

Lemma computed_record_keys z0 well md :
  keys (computed_record get_point z0 well md) = ["md"; "x"; "y"; "z"].
Proof. unfold computed_record. now destruct (get_point well md). Qed.

(** The shape of the printed records.  When the projection is not
    attempted, or the transformer cannot be built, every record has
    exactly the keys md, x, y, z, in this order.  When the transformer is
    built and the transform raises nothing but [TypeError], every record
    has exactly md, x, y, z, lat, lon. *)
Theorem printed_keys (args : Args.Namespace F) (points : list (dict F)) :
  outcome (run args) = inr points ->
  (guard args = false \/ (exists e, from_crs (Args.wkid args) = inl e) ->
   Forall (fun pt => keys pt = ["md"; "x"; "y"; "z"]) points)
  /\ (forall t,
        guard args = true -> from_crs (Args.wkid args) = inr t ->
        (forall x y e, transform t x y = inl e -> is_TypeError e = true) ->
        Forall (fun pt => keys pt = ["md"; "x"; "y"; "z"; "lat"; "lon"])
          points).
Proof.
  intros Hrun.
  destruct (main_prints args points Hrun)
    as (well_df & well & mds & _ & _ & _ & _ & Hproj).
  set (pts := map (computed_record get_point (or_zero (Args.z0 args)) well) mds)
    in Hproj.
  assert (Hpts : Forall (fun pt => keys pt = ["md"; "x"; "y"; "z"]) pts).
  { subst pts. apply Forall_forall. intros pt Hin.
    apply in_map_iff in Hin. destruct Hin as (md & <- & _).
    apply computed_record_keys. }
  split.
  - intros Hoff.
    destruct (guard args) eqn:Hg.
    + destruct Hoff as [Hoff | (e & He)]; [discriminate |].
      rewrite (project_on _ _ _ _ _ _ _ _ Hg), He in Hproj.
      destruct (is_CRSError e); [| discriminate].
      now injection Hproj as <-.
    + rewrite (project_off _ _ _ _ _ _ _ _ Hg) in Hproj.
      now injection Hproj as <-.
  - intros t Hg Ht Htr.
    rewrite (project_on _ _ _ _ _ _ _ _ Hg), Ht in Hproj.
    destruct (add_latlon_each_completes pts t Hpts Htr) as (ps & Heach).
    rewrite Heach in Hproj. injection Hproj as <-.
    exact (add_latlon_each_keys Transformer transform pts t ps Hpts Heach).
Qed.

End PrintedFacts.

(** ** Runs without --debug *)

Section QuietFacts.
Context {F : Type} `{Number F}.
Variable float_of_str : string -> option F.
Variables DataFrame Well Transformer : Type.
Variable read_csv : string -> exn + DataFrame.
Variable columns : DataFrame -> list string.
Variable wp_load : DataFrame -> number F -> number F -> number F -> exn + Well.
Variable get_point : Well -> F -> exn + Wp.point F.
Variable from_crs : option Z -> exn + Transformer.
Variable transform : Transformer -> pyval F -> pyval F -> exn + (F * F).

Local Abbreviation run :=
  (main float_of_str DataFrame Well Transformer read_csv columns wp_load
     get_point from_crs transform).
Local Abbreviation parse := (parse_mds float_of_str).
Local Abbreviation loop := (for_md_in Well get_point).
Local Abbreviation proj := (project Transformer from_crs transform).

Lemma bind_emit_off {B} (logger : Logger) l m (fs : list (fmtarg F))
    (k : unit -> M F B) :
  isEnabledFor logger l = false -> bind (emit logger l m fs) k = k tt.
Proof.
  intros Hoff. unfold emit. rewrite Hoff. simpl. now destruct (k tt).
Qed.

Lemma log_for_point_in_quiet (logger : Logger) (points : list (dict F)) :
  isEnabledFor logger DEBUG = false -> log_of (for_point_in logger points) = [].
Proof.
  intros Hoff. induction points as [| pt rest IH]; cbn [for_point_in].
  - reflexivity.
  - destruct (getitem pt "md"); [| reflexivity].
    now rewrite (bind_emit_off _ _ _ _ _ Hoff).
Qed.

Lemma log_project_no_wkid (logger : Logger) wkid (x0 y0 : number F) points :
  truthy (F := F) (opt_int wkid) = false ->
  log_of (proj logger wkid x0 y0 points) = [].
Proof. intros Hw. unfold project. now rewrite Hw. Qed.

(** A run without --debug and without a WKID that gets to print has
    logged exactly one ERROR record per depth that [get_point] refused,
    in the order of the md argument, and nothing else. *)
Theorem quiet_run_log (args : Args.Namespace F) (points : list (dict F)) :
  Args.debug args = false ->
  truthy (F := F) (opt_int (Args.wkid args)) = false ->
  outcome (run args) = inr points ->
  exists well_df well mds,
    read_csv (Args.csv args) = inr well_df
    /\ wp_load well_df (or_zero (Args.x0 args)) (or_zero (Args.y0 args))
         (or_zero (Args.azi_adj args)) = inr well
    /\ parse (Args.md args) = Some mds
    /\ log_of (run args)
       = map refused_record (filter (refused get_point well) mds).
Proof.
  intros Hd Hw. rewrite main_outcome. unfold logger_of. rewrite Hd.
  destruct (read_csv (Args.csv args)) as [e | well_df] eqn:Hread;
    [discriminate |].
  destruct (missing (columns well_df)) eqn:Hmiss; [| discriminate].
  destruct (wp_load well_df _ _ _) as [e | well] eqn:Hload; [discriminate |].
  destruct (parse (Args.md args)) as [mds |] eqn:Hparse; [| discriminate].
  destruct (outcome (loop _ _ well mds [])) as [e | pts] eqn:Hloop;
    [discriminate |].
  destruct (outcome (proj _ _ _ _ pts)) as [e | pts'] eqn:Hproj;
    [discriminate |].
  destruct (outcome (for_point_in _ pts')) as [e | u] eqn:Hfor;
    [discriminate |].
  intros _. exists well_df, well, mds.
  repeat split; try assumption; try reflexivity.
  unfold main. rewrite Hd, Hparse, Hread.
  rewrite !(bind_emit_off (get_logger INFO) DEBUG) by reflexivity.
  rewrite log_ret_bind, (bind_emit_off (get_logger INFO) DEBUG) by reflexivity.
  rewrite log_lift_bind, (bind_emit_off (get_logger INFO) DEBUG) by reflexivity.
  rewrite Hmiss, (bind_emit_off (get_logger INFO) DEBUG) by reflexivity.
  rewrite Hload, log_lift_bind.
  rewrite (log_bind_inr _ _ pts Hloop), (log_bind_inr _ _ pts' Hproj).
  rewrite (bind_emit_off (get_logger INFO) DEBUG) by reflexivity.
  rewrite (log_bind_inr _ _ u Hfor).
  rewrite (log_for_md_in Well get_point (get_logger INFO) _ _ _ _ pts
             eq_refl eq_refl Hloop).
  rewrite (log_project_no_wkid _ _ _ _ _ Hw).
  rewrite log_for_point_in_quiet by reflexivity.
  simpl. now rewrite app_nil_r.
Qed.

(** The run depends on x0, y0, z0 and azi_adj only through
    [v if v else 0]: without --debug, arguments that agree after this
    defaulting give the same log and the same outcome, so an explicit
    0.0 behaves exactly like an omitted option. *)
Theorem zero_is_omitted md csv wkid (a b c d a' b' c' d' : option F) :
  or_zero a = or_zero a' -> or_zero b = or_zero b' ->
  or_zero c = or_zero c' -> or_zero d = or_zero d' ->
  run (Args.mkNamespace md csv wkid a b c d false)
  = run (Args.mkNamespace md csv wkid a' b' c' d' false).
Proof.
  intros Ha Hb Hc Hd. unfold main.
  cbn [Args.md Args.csv Args.wkid Args.x0 Args.y0 Args.z0 Args.azi_adj
       Args.debug].
  rewrite Ha, Hb, Hc, Hd.
  now rewrite !(bind_emit_off (get_logger INFO) DEBUG) by reflexivity.
Qed.

End QuietFacts.

(** ** Applying [add_latlon] again *)

Section AddLatlonAgain.
Context {F : Type}.
Variable Transformer : Type.
Variable transform : Transformer -> pyval F -> pyval F -> exn + (F * F).

Local Abbreviation add_ll := (add_latlon Transformer transform).

Lemma setitem_same (d : dict F) k v :
  getitem d k = Some v -> setitem d k v = d.
Proof.
  induction d as [| [k' v'] rest IH]; simpl; [discriminate |].
  destruct (String.eqb k' k).
  - now intros [= ->].
  - intros Hrest. now rewrite (IH Hrest).
Qed.

(** [add_latlon] overwrites lat and lon rather than adding them again:
    applied to its own result with the same transformer it returns that
    result unchanged. *)
Theorem add_latlon_idempotent (point point' : dict F) (t : Transformer) :
  add_ll point t = inr point' -> add_ll point' t = inr point'.
Proof.
  intros Hadd.
  assert (Hx : getitem point' "x" = getitem point "x")
    by (apply (add_latlon_keeps Transformer transform point point' t "x" Hadd);
        discriminate).
  assert (Hy : getitem point' "y" = getitem point "y")
    by (apply (add_latlon_keeps Transformer transform point point' t "y" Hadd);
        discriminate).
  assert (Hfix : forall lon lat : pyval F,
             setitem (setitem point "lat" lat) "lon" lon = point' ->
             setitem (setitem point' "lat" lat) "lon" lon = point').
  { intros lon lat <-.
    rewrite (setitem_same _ "lat" lat).
    - apply setitem_same, getitem_setitem_same.
    - rewrite getitem_setitem_other by discriminate.
      apply getitem_setitem_same. }
  unfold add_latlon in Hadd |- *. rewrite Hx, Hy.
  destruct (getitem point "x") as [x |]; [| discriminate].
  destruct (getitem point "y") as [y |]; [| discriminate].
  destruct (transform t x y) as [e | [lon lat]].
  - destruct (is_TypeError e); [| discriminate].
    injection Hadd as Hadd. f_equal. now apply Hfix.
  - injection Hadd as Hadd. f_equal. now apply Hfix.
Qed.

End AddLatlonAgain.

(** ** Runs that exercise the further properties *)

Section FurtherRuns.
Local Open Scope float_scope.

Lemma parse_mds_pieces_witness :
  parse_mds Demo.float_of_str "500,50000" = Some [500; 50000]
  /\ Forall2 (fun piece f => Demo.float_of_str piece = Some f)
       (split "," "500,50000") [500; 50000]
  /\ List.length [500; 50000] = S (occurrences "," "500,50000").
Proof.
  split; [reflexivity |].
  exact (parse_mds_pieces Demo.float_of_str "500,50000" [500; 50000] eq_refl).
Defined.

Lemma parse_mds_empty_piece_witness :
  Demo.float_of_str "" = None
  /\ parse_mds Demo.float_of_str "" = None
  /\ parse_mds Demo.float_of_str ",500" = None
  /\ parse_mds Demo.float_of_str "500," = None.
Proof.
  split; [reflexivity |].
  exact (parse_mds_empty_piece Demo.float_of_str "500" eq_refl).
Defined.

Lemma other_exception_aborts_witness :
  outcome (for_md_in Demo.Well Faulty.get_point INFO (Int 0) (Int 0, Int 0)
             [500] [])
  = inr [ [("md", pyfloat 500); ("x", pyfloat 0); ("y", pyfloat 0);
           ("z", pyfloat (-500))] ]
  /\ Faulty.get_point (Int 0, Int 0) (-1)
     = inl (OtherError "RuntimeError" "negative depth")
  /\ outcome (for_md_in Demo.Well Faulty.get_point INFO (Int 0) (Int 0, Int 0)
                [500; -1; 250] [])
     = inl (OtherError "RuntimeError" "negative depth").
Proof.
  split; [reflexivity |]. split; [reflexivity |].
  exact (other_exception_aborts Demo.Well Faulty.get_point INFO (Int 0)
           (Int 0, Int 0) [500] [250] (-1)
           (OtherError "RuntimeError" "negative depth") _
           eq_refl eq_refl eq_refl).
Defined.

Lemma projection_stops_midway_witness :
  add_latlon_each Demo.Transformer Faulty.transform
    [ [("md", pyfloat 500); ("x", pyfloat 3); ("y", pyfloat 4);
       ("z", pyfloat (-500))] ] 32631%Z
  = ([ [("md", pyfloat 500); ("x", pyfloat 3); ("y", pyfloat 4);
        ("z", pyfloat (-500));
        ("lat", pyfloat (4 / 100000)); ("lon", pyfloat (3 / 100000))] ], None)
  /\ add_latlon Demo.Transformer Faulty.transform (placeholder 50000) 32631%Z
     = inl CRSError
  /\ outcome (project Demo.Transformer Demo.from_crs Faulty.transform INFO
                (Some 32631%Z) (Float 3) (Float 4)
                [ [("md", pyfloat 500); ("x", pyfloat 3); ("y", pyfloat 4);
                   ("z", pyfloat (-500))];
                  placeholder 50000;
                  [("md", pyfloat 250); ("x", pyfloat 3); ("y", pyfloat 4);
                   ("z", pyfloat (-250))] ])
     = inr [ [("md", pyfloat 500); ("x", pyfloat 3); ("y", pyfloat 4);
              ("z", pyfloat (-500));
              ("lat", pyfloat (4 / 100000)); ("lon", pyfloat (3 / 100000))];
             placeholder 50000;
             [("md", pyfloat 250); ("x", pyfloat 3); ("y", pyfloat 4);
              ("z", pyfloat (-250))] ].
Proof.
  split; [reflexivity |]. split; [reflexivity |].
  exact (projection_stops_midway Demo.Transformer Demo.from_crs
           Faulty.transform INFO (Some 32631%Z) (Float 3) (Float 4) 32631%Z
           [ [("md", pyfloat 500); ("x", pyfloat 3); ("y", pyfloat 4);
              ("z", pyfloat (-500))] ]
           [ [("md", pyfloat 250); ("x", pyfloat 3); ("y", pyfloat 4);
              ("z", pyfloat (-250))] ]
           _ (placeholder 50000) eq_refl eq_refl eq_refl eq_refl).
Defined.

Lemma wkid_without_origin_warns_witness :
  isEnabledFor INFO WARNING = true
  /\ truthy_num (or_zero (Some 0)) && truthy_num (or_zero (Some 4)) = false
  /\ outcome (project Demo.Transformer Demo.from_crs Demo.transform INFO
                (Some 32631%Z) (or_zero (Some 0)) (or_zero (Some 4))
                [placeholder 50000])
     = inr [placeholder 50000]
  /\ log_of (project Demo.Transformer Demo.from_crs Demo.transform INFO
               (Some 32631%Z) (or_zero (Some 0)) (or_zero (Some 4))
               [placeholder 50000])
     = [{| levelname := WARNING;
           msg := "WKID was supplied without x0/y0, so WGS84 lat/lon cannot be determined";
           fields := [] |}].
Proof.
  split; [reflexivity |]. split; [reflexivity |].
  exact (wkid_without_origin_warns Demo.Transformer Demo.from_crs
           Demo.transform INFO (Some 32631%Z) (or_zero (Some 0))
           (or_zero (Some 4)) [placeholder 50000] eq_refl eq_refl).
Defined.

Lemma printed_records_witness :
  outcome (Demo.main (Demo.args "500,50000" (Some 32631%Z) (Some 3) (Some 4)))
  = inr [ [("md", pyfloat 500); ("x", pyfloat 3); ("y", pyfloat 4);
           ("z", pyfloat (-500));
           ("lat", pyfloat (4 / 100000)); ("lon", pyfloat (3 / 100000))];
          [("md", pyfloat 50000); ("x", PNone); ("y", PNone); ("z", PNone);
           ("lat", PNone); ("lon", PNone)] ]
  /\ exists well_df well mds,
       Demo.read_csv "well.csv" = inr well_df
       /\ Demo.wp_load well_df (Float 3) (Float 4) (Int 0) = inr well
       /\ parse_mds Demo.float_of_str "500,50000" = Some mds
       /\ Forall2 (fun md pt =>
                     forall k, k <> "lat" -> k <> "lon" ->
                       getitem pt k
                       = getitem (computed_record Demo.get_point (Int 0)
                                    well md) k)
            mds
            [ [("md", pyfloat 500); ("x", pyfloat 3); ("y", pyfloat 4);
               ("z", pyfloat (-500));
               ("lat", pyfloat (4 / 100000)); ("lon", pyfloat (3 / 100000))];
              [("md", pyfloat 50000); ("x", PNone); ("y", PNone); ("z", PNone);
               ("lat", PNone); ("lon", PNone)] ].
Proof.
  split; [reflexivity |].
  exact (printed_records Demo.float_of_str Demo.DataFrame Demo.Well
           Demo.Transformer Demo.read_csv Demo.columns Demo.wp_load
           Demo.get_point Demo.from_crs Demo.transform
           (Demo.args "500,50000" (Some 32631%Z) (Some 3) (Some 4)) _ eq_refl).
Defined.

Lemma printed_keys_witness :
  outcome (Demo.main (Demo.args "500,50000" (Some 32631%Z) (Some 3) (Some 4)))
  = inr [ [("md", pyfloat 500); ("x", pyfloat 3); ("y", pyfloat 4);
           ("z", pyfloat (-500));
           ("lat", pyfloat (4 / 100000)); ("lon", pyfloat (3 / 100000))];
          [("md", pyfloat 50000); ("x", PNone); ("y", PNone); ("z", PNone);
           ("lat", PNone); ("lon", PNone)] ]
  /\ Demo.from_crs (Some 32631%Z) = inr 32631%Z
  /\ (forall x y e, Demo.transform 32631%Z x y = inl e ->
                    is_TypeError e = true)
  /\ Forall (fun pt => keys pt = ["md"; "x"; "y"; "z"; "lat"; "lon"])
       [ [("md", pyfloat 500); ("x", pyfloat 3); ("y", pyfloat 4);
          ("z", pyfloat (-500));
          ("lat", pyfloat (4 / 100000)); ("lon", pyfloat (3 / 100000))];
         [("md", pyfloat 50000); ("x", PNone); ("y", PNone); ("z", PNone);
          ("lat", PNone); ("lon", PNone)] ].
Proof.
  assert (Htr : forall x y e, Demo.transform 32631%Z x y = inl e ->
                              is_TypeError e = true).
  { intros x y e He.
    destruct (demo_transform_errors _ _ _ _ He) as [-> | ->];
      [reflexivity |].
    unfold Demo.transform in He.
    destruct x as [| | [|] |]; try discriminate.
    destruct y as [| | [|] |]; discriminate. }
  split; [reflexivity |]. split; [reflexivity |]. split; [exact Htr |].
  exact (proj2 (printed_keys Demo.float_of_str Demo.DataFrame Demo.Well
                  Demo.Transformer Demo.read_csv Demo.columns Demo.wp_load
                  Demo.get_point Demo.from_crs Demo.transform
                  (Demo.args "500,50000" (Some 32631%Z) (Some 3) (Some 4))
                  _ eq_refl)
           32631%Z eq_refl eq_refl Htr).
Defined.

Lemma quiet_run_log_witness :
  outcome (Demo.main (Demo.args "500,50000,250,2000" None (Some 3) (Some 4)))
  = inr [ [("md", pyfloat 500); ("x", pyfloat 3); ("y", pyfloat 4);
           ("z", pyfloat (-500))];
          placeholder 50000;
          [("md", pyfloat 250); ("x", pyfloat 3); ("y", pyfloat 4);
           ("z", pyfloat (-250))];
          placeholder 2000 ]
  /\ exists well_df well mds,
       Demo.read_csv "well.csv" = inr well_df
       /\ Demo.wp_load well_df (Float 3) (Float 4) (Int 0) = inr well
       /\ parse_mds Demo.float_of_str "500,50000,250,2000" = Some mds
       /\ log_of (Demo.main (Demo.args "500,50000,250,2000" None
                               (Some 3) (Some 4)))
          = map refused_record (filter (refused Demo.get_point well) mds).
Proof.
  split; [reflexivity |].
  exact (quiet_run_log Demo.float_of_str Demo.DataFrame Demo.Well
           Demo.Transformer Demo.read_csv Demo.columns Demo.wp_load
           Demo.get_point Demo.from_crs Demo.transform
           (Demo.args "500,50000,250,2000" None (Some 3) (Some 4)) _
           eq_refl eq_refl eq_refl).
Defined.

Lemma zero_is_omitted_witness :
  or_zero (Some 0) = or_zero (F := float) None
  /\ or_zero (Some (-0)) = or_zero (F := float) None
  /\ Demo.main (Args.mkNamespace "500" "well.csv" (Some 32631%Z)
                  (Some 0) (Some 4) (Some (-0)) None false)
     = Demo.main (Args.mkNamespace "500" "well.csv" (Some 32631%Z)
                    None (Some 4) None None false).
Proof.
  split; [reflexivity |]. split; [reflexivity |].
  exact (zero_is_omitted Demo.float_of_str Demo.DataFrame Demo.Well
           Demo.Transformer Demo.read_csv Demo.columns Demo.wp_load
           Demo.get_point Demo.from_crs Demo.transform
           "500" "well.csv" (Some 32631%Z)
           (Some 0) (Some 4) (Some (-0)) None None (Some 4) None None
           eq_refl eq_refl eq_refl eq_refl).
Defined.

Lemma add_latlon_idempotent_witness :
  add_latlon Demo.Transformer Demo.transform
    [("md", pyfloat 500); ("x", pyfloat 3); ("y", pyfloat 4);
     ("z", pyfloat (-500))] 32631%Z
  = inr [("md", pyfloat 500); ("x", pyfloat 3); ("y", pyfloat 4);
         ("z", pyfloat (-500));
         ("lat", pyfloat (4 / 100000)); ("lon", pyfloat (3 / 100000))]
  /\ add_latlon Demo.Transformer Demo.transform
       [("md", pyfloat 500); ("x", pyfloat 3); ("y", pyfloat 4);
        ("z", pyfloat (-500));
        ("lat", pyfloat (4 / 100000)); ("lon", pyfloat (3 / 100000))] 32631%Z
     = inr [("md", pyfloat 500); ("x", pyfloat 3); ("y", pyfloat 4);
            ("z", pyfloat (-500));
            ("lat", pyfloat (4 / 100000)); ("lon", pyfloat (3 / 100000))].
Proof.
  split; [reflexivity |].
  exact (add_latlon_idempotent Demo.Transformer Demo.transform
           [("md", pyfloat 500); ("x", pyfloat 3); ("y", pyfloat 4);
            ("z", pyfloat (-500))] _ 32631%Z eq_refl).
Defined.

End FurtherRuns.
